(** * Vimeo API wrapper: a shallow embedding of the provider client,
      the request handlers and the settings loader, with the properties
      of the specification proved (or refuted) against it.

    Source files embedded here:
    - [app/services/vimeo_client.py]  ([VimeoClient])
    - [app/api/routes/videos.py]      (the four handlers)
    - [app/core/config.py], [app/core/logging.py]  ([Settings], log level)

    Modelling conventions.
    - A Python [str] is a [string]: a sequence of bytes holding the UTF-8
      encoding.  The only character the code inspects is ["/"], an ASCII
      byte that never occurs inside a multi-byte sequence, so splitting on
      it agrees with splitting the Unicode string.
    - A value decoded from a provider body ([response.json()]) is a [json].
      Numbers are integers ([Z], unbounded like a Python [int]); numbers
      with a fraction or exponent are outside the model.
    - A Python [dict] is an association list read by its first binding.
    - An exception is a value of [exn]; code that may raise returns a
      [result]. *)

From Stdlib Require Import ZArith List String Ascii Bool Lia.
Import ListNotations.
Open Scope string_scope.
Open Scope Z_scope.
Set Warnings "-register-all".

(** ** Python values and exceptions *)

Inductive json : Type :=
| JNull
| JBool (b : bool)
| JInt (n : Z)
| JStr (s : string)
| JArr (items : list json)
| JObj (fields : list (string * json)).

(** [httpx]: the response of the provider, and the ways a request can
    fail before a response exists (the subclasses of
    [httpx.RequestError]).  [json] is the value [response.json()]
    decodes, [None] when the body is not JSON. *)
Module httpx.
Record Response : Type := {
  status_code : Z;
  text : string;
  json : option json
}.

Inductive RequestError : Type :=
| TimeoutException
| ConnectError
| ReadError
| ProtocolError
| UnsupportedProtocol
| TooManyRedirects.

(** [response.is_success] *)
Definition is_success (r : Response) : bool :=
  (200 <=? status_code r) && (status_code r <=? 299).
End httpx.

Inductive exn : Type :=
| HTTPException (status_code : Z) (detail : string)
| HTTPStatusError (response : httpx.Response)
| RequestError (e : httpx.RequestError)
| RequestValidationError
| AttributeError
| TypeError
| IndexError
| KeyError
| JSONDecodeError
| ValidationError.

Inductive result (A : Type) : Type :=
| Ok (a : A)
| Raise (e : exn).
Arguments Ok {A} a.
Arguments Raise {A} e.

Definition rbind {A B} (r : result A) (k : A -> result B) : result B :=
  match r with
  | Ok a => k a
  | Raise e => Raise e
  end.

Declare Scope py_scope.
Delimit Scope py_scope with py.
Notation "x <- r ;; k" := (rbind r (fun x => k))
  (at level 61, r at next level, right associativity) : py_scope.

(** [d[k]] of an association list: the first binding of [k]. *)
Fixpoint lookup (k : string) (fields : list (string * json)) : option json :=
  match fields with
  | [] => None
  | (k', v) :: rest => if String.eqb k k' then Some v else lookup k rest
  end.

Definition get_default (fields : list (string * json)) (key : string)
    (default : json) : json :=
  match lookup key fields with
  | Some v => v
  | None => default
  end.

(** [data.get(key, default)]: only a dict has [get]. *)
Definition dict_get (data : json) (key : string) (default : json) : result json :=
  match data with
  | JObj fields => Ok (get_default fields key default)
  | _ => Raise AttributeError
  end.

(** [s.split(sep)] for a one-character separator: one more piece than
    there are separators, never the empty list. *)
Fixpoint split (sep : ascii) (s : string) : list string :=
  match s with
  | EmptyString => [EmptyString]
  | String c rest =>
      if Ascii.eqb c sep then EmptyString :: split sep rest
      else match split sep rest with
           | [] => [String c EmptyString]
           | piece :: pieces => String c piece :: pieces
           end
  end.

(** [v.split("/")]: only a str has [split]. *)
Definition str_split (v : json) (sep : ascii) : result (list string) :=
  match v with
  | JStr s => Ok (split sep s)
  | _ => Raise AttributeError
  end.

(** [l[-1]]: the last element, [IndexError] on the empty list. *)
Fixpoint index_last {A} (l : list A) : result A :=
  match l with
  | [] => Raise IndexError
  | [x] => Ok x
  | _ :: rest => index_last rest
  end.

(** Truth value of a Python object, as tested by [if not x] and [if x]. *)
Definition truthy (v : json) : bool :=
  match v with
  | JNull => false
  | JBool b => b
  | JInt n => negb (n =? 0)
  | JStr s => negb (String.eqb s "")
  | JArr items => match items with [] => false | _ => true end
  | JObj fields => match fields with [] => false | _ => true end
  end.

(** [for v in x]: a list yields its items, a dict its keys, a str its
    characters (here its bytes: what matters below is only that the
    items of a non-empty str are again strs, and that the empty str has
    none); nothing else is iterable. *)
Definition py_iter (v : json) : result (list json) :=
  match v with
  | JArr items => Ok items
  | JObj fields => Ok (map (fun kv => JStr (fst kv)) fields)
  | JStr s => Ok (map (fun c => JStr (String c EmptyString)) (list_ascii_of_string s))
  | _ => Raise TypeError
  end.

(** ** The schema ([app/schemas/video.py]) *)

Record Picture : Type := {
  active : bool;
  type : string;
  sizes : list (list (string * json));
  resource_key : string
}.

Record Video : Type := {
  id : string;
  name : string;
  description : option string;
  duration : Z;
  link : string;
  embed_html : option string;
  pictures : option Picture
}.

Record VideoList : Type := {
  data : list Video;
  page : Z;
  per_page : Z;
  total : Z
}.

Record PlayVideoResponse : Type := {
  play_link : string;
  play_embed_html : option string
}.

Record UploadResponse : Type := {
  video_id : string;
  upload_link : string;
  status : string
}.

(** What the code leaves to its libraries and this development does not
    fix: pydantic's URL grammar, its lax conversions of values that are
    not already of the field's type, and Starlette's quoting of a
    redirect target.
    - [http_url s]: validation of the str [s] by an [HttpUrl] field;
      [None] when rejected, otherwise [str()] of the accepted URL.
    - [lax_int v], [lax_bool v]: what an [int] / [bool] field makes of a
      value [v] that is not an int / bool.
    - [quote s]: the text Starlette writes into a [Location] header. *)
Record Libs : Type := {
  http_url : string -> option string;
  lax_int : json -> option Z;
  lax_bool : json -> option bool;
  quote : string -> string
}.

Definition of_option {A} (o : option A) : result A :=
  match o with
  | Some a => Ok a
  | None => Raise ValidationError
  end.

Section Validation.
Context (L : Libs).

(** Field validators of pydantic (version 2, default mode): a value of
    the field's own type is taken as it is. *)
Definition validate_str (v : json) : result string :=
  match v with
  | JStr s => Ok s
  | _ => Raise ValidationError
  end.

Definition validate_optional_str (v : json) : result (option string) :=
  match v with
  | JNull => Ok None
  | JStr s => Ok (Some s)
  | _ => Raise ValidationError
  end.

Definition validate_int (v : json) : result Z :=
  match v with
  | JInt n => Ok n
  | _ => of_option (lax_int L v)
  end.

Definition validate_bool (v : json) : result bool :=
  match v with
  | JBool b => Ok b
  | _ => of_option (lax_bool L v)
  end.

Definition validate_HttpUrl (v : json) : result string :=
  match v with
  | JStr s => of_option (http_url L s)
  | _ => Raise ValidationError
  end.

Definition validate_dict (v : json) : result (list (string * json)) :=
  match v with
  | JObj fields => Ok fields
  | _ => Raise ValidationError
  end.

Fixpoint validate_list {A} (f : json -> result A) (items : list json)
  : result (list A) :=
  match items with
  | [] => Ok []
  | v :: rest =>
      (a <- f v ;; l <- validate_list f rest ;; Ok (a :: l))%py
  end.

Definition required (fields : list (string * json)) (k : string) : result json :=
  of_option (lookup k fields).

(** [Picture]: four required fields, other keys ignored. *)
Definition validate_Picture (v : json) : result Picture :=
  match v with
  | JObj fields =>
      (a <- rbind (required fields "active") validate_bool ;;
       t <- rbind (required fields "type") validate_str ;;
       s <- rbind (required fields "sizes")
              (fun x => match x with
                        | JArr items => validate_list validate_dict items
                        | _ => Raise ValidationError
                        end) ;;
       r <- rbind (required fields "resource_key") validate_str ;;
       Ok {| active := a; type := t; sizes := s; resource_key := r |})%py
  | _ => Raise ValidationError
  end.

Definition validate_optional_Picture (v : json) : result (option Picture) :=
  match v with
  | JNull => Ok None
  | _ => rbind (validate_Picture v) (fun p => Ok (Some p))
  end.

(** The keyword arguments [_normalize_video] passes to [Video(...)]. *)
Record VideoArgs : Type := {
  arg_id : json;
  arg_name : json;
  arg_description : json;
  arg_duration : json;
  arg_link : json;
  arg_embed_html : json;
  arg_pictures : json
}.

(** [Video(...)]: every field validated, one [ValidationError] when
    any of them is rejected. *)
Definition Video_init (a : VideoArgs) : result Video :=
  (i <- validate_str (arg_id a) ;;
   n <- validate_str (arg_name a) ;;
   d <- validate_optional_str (arg_description a) ;;
   t <- validate_int (arg_duration a) ;;
   l <- validate_HttpUrl (arg_link a) ;;
   e <- validate_optional_str (arg_embed_html a) ;;
   p <- validate_optional_Picture (arg_pictures a) ;;
   Ok {| id := i; name := n; description := d; duration := t; link := l;
         embed_html := e; pictures := p |})%py.

End Validation.

(** ** Settings ([app/core/config.py]) and the log level ([app/core/logging.py]) *)

Record Settings : Type := {
  VIMEO_ACCESS_TOKEN : string;
  VIMEO_BASE_URL : string;
  LOG_LEVEL : string
}.

Definition environment : Type := list (string * string).

Fixpoint getenv (k : string) (e : environment) : option string :=
  match e with
  | [] => None
  | (k', v) :: rest => if String.eqb k k' then Some v else getenv k rest
  end.

(** The value the settings sources give a field: the process
    environment first, then the [.env] file ([env_file=".env"]; [None]
    when there is no such file), names compared exactly
    ([case_sensitive=True]). *)
Definition source_value (environ : environment) (dotenv : option environment)
    (k : string) : option string :=
  match getenv k environ with
  | Some v => Some v
  | None => match dotenv with
            | Some file => getenv k file
            | None => None
            end
  end.

(** A field with a default takes it when no source has the field; a
    field without one is required. *)
Definition field_with_default (o : option string) (default : string) : string :=
  match o with Some v => v | None => default end.

(** [Settings()] *)
Definition Settings_init (environ : environment) (dotenv : option environment)
  : result Settings :=
  match source_value environ dotenv "VIMEO_ACCESS_TOKEN" with
  | None => Raise ValidationError
  | Some token =>
      Ok {| VIMEO_ACCESS_TOKEN := token;
            VIMEO_BASE_URL :=
              field_with_default (source_value environ dotenv "VIMEO_BASE_URL")
                "https://api.vimeo.com";
            LOG_LEVEL :=
              field_with_default (source_value environ dotenv "LOG_LEVEL") "INFO" |}
  end.

Module logging.
Definition DEBUG : Z := 10.
Definition INFO : Z := 20.
Definition WARNING : Z := 30.
Definition ERROR : Z := 40.
Definition CRITICAL : Z := 50.

(** The numeric level constants of the module, by name. *)
Definition level_constant (nm : string) : option Z :=
  if String.eqb nm "NOTSET" then Some 0
  else if String.eqb nm "DEBUG" then Some DEBUG
  else if String.eqb nm "INFO" then Some INFO
  else if String.eqb nm "WARN" then Some WARNING
  else if String.eqb nm "WARNING" then Some WARNING
  else if String.eqb nm "ERROR" then Some ERROR
  else if String.eqb nm "FATAL" then Some CRITICAL
  else if String.eqb nm "CRITICAL" then Some CRITICAL
  else None.
End logging.

Definition upper_ascii (c : ascii) : ascii :=
  let n := nat_of_ascii c in
  if ((97 <=? n) && (n <=? 122))%nat then ascii_of_nat (n - 32) else c.

Fixpoint upper (s : string) : string :=
  match s with
  | EmptyString => EmptyString
  | String c rest => String (upper_ascii c) (upper rest)
  end.

(** [getattr(logging, settings.LOG_LEVEL.upper(), logging.INFO)] in
    [setup_logging], for a [LOG_LEVEL] in ASCII that names a level or
    names no attribute of the module at all; the other upper-case
    attributes of [logging] ([BASIC_FORMAT]) and letters outside ASCII
    are not covered. *)
Definition log_level (s : Settings) : Z :=
  match logging.level_constant (upper (LOG_LEVEL s)) with
  | Some l => l
  | None => logging.INFO
  end.

(** ** Outbound calls *)

Inductive Method : Type := GET | POST | PATCH | PUT.

Record Request : Type := {
  method : Method;
  url : string;
  headers : list (string * string);
  params : list (string * json);
  json_body : option json;
  content : option string
}.

Inductive Outcome : Type :=
| Responded (r : httpx.Response)
| Failed (e : httpx.RequestError).

(** The provider, as the client meets it: what it does with a request,
    given the requests it has already received. *)
Definition Provider : Type := list Request -> Request -> Outcome.

(** A computation that may call the provider and may raise: run against
    a provider and the calls made so far, it gives its result and the
    calls made by then. *)
Definition io (A : Type) : Type :=
  Provider -> list Request -> result A * list Request.

Definition ret {A} (a : A) : io A := fun _ sent => (Ok a, sent).

Definition raise {A} (e : exn) : io A := fun _ sent => (Raise e, sent).

Definition bind {A B} (m : io A) (k : A -> io B) : io B :=
  fun p sent =>
    match m p sent with
    | (Ok a, sent') => k a p sent'
    | (Raise e, sent') => (Raise e, sent')
    end.

Definition lift {A} (r : result A) : io A := fun _ sent => (r, sent).

(** [try: m  except ...: handler]; the handler says which exceptions
    it catches. *)
Definition try_except {A} (m : io A) (handler : exn -> option (io A)) : io A :=
  fun p sent =>
    match m p sent with
    | (Ok a, sent') => (Ok a, sent')
    | (Raise e, sent') =>
        match handler e with
        | Some h => h p sent'
        | None => (Raise e, sent')
        end
    end.

(** [await client.request(...)]: the request goes out; a failure of the
    transport is raised as [httpx.RequestError]. *)
Definition send (req : Request) : io httpx.Response :=
  fun p sent =>
    match p sent req with
    | Responded r => (Ok r, (sent ++ [req])%list)
    | Failed e => (Raise (RequestError e), (sent ++ [req])%list)
    end.

Declare Scope io_scope.
Delimit Scope io_scope with io.
Notation "x <- m ;; k" := (bind m (fun x => k))
  (at level 61, m at next level, right associativity) : io_scope.
Notation "m ;;; k" := (bind m (fun _ => k))
  (at level 61, right associativity) : io_scope.

(** [response.raise_for_status()]: raises for every status that is
    not a success (200 to 299). *)
Definition raise_for_status (r : httpx.Response) : io unit :=
  if httpx.is_success r then ret tt else raise (HTTPStatusError r).

(** [response.json()] *)
Definition response_json (r : httpx.Response) : io json :=
  match httpx.json r with
  | Some v => ret v
  | None => raise JSONDecodeError
  end.

(** Status codes of [fastapi.status] used by the code. *)
Module status.
Definition HTTP_401_UNAUTHORIZED : Z := 401.
Definition HTTP_403_FORBIDDEN : Z := 403.
Definition HTTP_404_NOT_FOUND : Z := 404.
Definition HTTP_429_TOO_MANY_REQUESTS : Z := 429.
Definition HTTP_502_BAD_GATEWAY : Z := 502.
Definition HTTP_503_SERVICE_UNAVAILABLE : Z := 503.
End status.

(** ** The provider client ([app/services/vimeo_client.py]) *)

Record VimeoClient : Type := {
  base_url : string;
  self_headers : list (string * string)
}.

(** [VimeoClient.__init__] *)
Definition VimeoClient_init (settings : Settings) : VimeoClient :=
  {| base_url := VIMEO_BASE_URL settings;
     self_headers :=
       [("Authorization", "bearer " ++ VIMEO_ACCESS_TOKEN settings);
        ("Content-Type", "application/json");
        ("Accept", "application/vnd.vimeo.*+json;version=3.4")] |}.

(** [[f(v) for v in items]] *)
Fixpoint comprehension {A} (f : json -> result A) (items : list json)
  : result (list A) :=
  match items with
  | [] => Ok []
  | v :: rest => (a <- f v ;; l <- comprehension f rest ;; Ok (a :: l))%py
  end.

Module vimeo_client.
Section WithLibs.
Context (L : Libs).

(** [VimeoClient._request].  The two [logger.error] lines write to the
    log only and are left out. *)
Definition _request (self : VimeoClient) (m : Method) (endpoint : string)
    (query : list (string * json)) (body : option json) : io json :=
  try_except
    (response <- send {| method := m;
                         url := base_url self ++ endpoint;
                         headers := self_headers self;
                         params := query;
                         json_body := body;
                         content := None |} ;;
     raise_for_status response ;;;
     response_json response)%io
    (fun e =>
       match e with
       | HTTPStatusError response =>
           let status_code := httpx.status_code response in
           let detail := "Vimeo API Error: " ++ httpx.text response in
           Some (if status_code =? 401 then
                   raise (HTTPException status.HTTP_401_UNAUTHORIZED "Invalid Vimeo Token")
                 else if status_code =? 403 then
                   raise (HTTPException status.HTTP_403_FORBIDDEN "Permission Denied")
                 else if status_code =? 404 then
                   raise (HTTPException status.HTTP_404_NOT_FOUND "Resource Not Found")
                 else if status_code =? 429 then
                   raise (HTTPException status.HTTP_429_TOO_MANY_REQUESTS "Rate Limit Exceeded")
                 else
                   raise (HTTPException status.HTTP_502_BAD_GATEWAY detail))
       | RequestError _ =>
           Some (raise (HTTPException status.HTTP_503_SERVICE_UNAVAILABLE
                          "Service Unavailable"))
       | _ => None
       end).

(** [VimeoClient._normalize_video] *)

(** [data.get("uri", "").split("/")[-1]] *)
Definition extract_video_id (data : json) : result string :=
  (uri <- dict_get data "uri" (JStr "") ;;
   pieces <- str_split uri "/" ;;
   index_last pieces)%py.

(** [data.get("embed", {}).get("html")] *)
Definition extract_embed_html (data : json) : result json :=
  (embed <- dict_get data "embed" (JObj []) ;;
   dict_get embed "html" JNull)%py.

Definition video_args (data : json) : result VideoArgs :=
  (video_id <- extract_video_id data ;;
   html <- extract_embed_html data ;;
   n <- dict_get data "name" (JStr "Untitled") ;;
   d <- dict_get data "description" JNull ;;
   t <- dict_get data "duration" (JInt 0) ;;
   l <- dict_get data "link" (JStr "") ;;
   p <- dict_get data "pictures" JNull ;;
   Ok {| arg_id := JStr video_id; arg_name := n; arg_description := d;
         arg_duration := t; arg_link := l; arg_embed_html := html;
         arg_pictures := p |})%py.

Definition _normalize_video (data : json) : result Video :=
  rbind (video_args data) (Video_init L).

(** [VideoList(data=videos, page=..., per_page=..., total=...)] *)
Definition VideoList_init (videos : list Video) (p pp t : json) : result VideoList :=
  (p' <- validate_int L p ;;
   pp' <- validate_int L pp ;;
   t' <- validate_int L t ;;
   Ok {| data := videos; page := p'; per_page := pp'; total := t' |})%py.

(** From a decoded body to a [VideoList]: the items of [data]
    normalised one by one, and [page], [per_page], [total] with the
    defaults 1, 25 and 0.  [get_videos] and [search_videos] below each
    spell their own body out as the source does; the lemmas on them
    compare both with this one. *)
Definition video_list_of (body : json) : result VideoList :=
  (items <- dict_get body "data" (JArr []) ;;
   vs <- py_iter items ;;
   videos <- comprehension (_normalize_video) vs ;;
   p <- dict_get body "page" (JInt 1) ;;
   pp <- dict_get body "per_page" (JInt 25) ;;
   t <- dict_get body "total" (JInt 0) ;;
   VideoList_init videos p pp t)%py.

(** [if sort: params["sort"] = sort] *)
Definition sort_param (sort : option string) : list (string * json) :=
  match sort with
  | Some s => if truthy (JStr s) then [("sort", JStr s)] else []
  | None => []
  end.

Definition get_videos (self : VimeoClient) (page per_page : Z) (sort : option string)
  : io VideoList :=
  let query := ([("page", JInt page); ("per_page", JInt per_page)]
                  ++ sort_param sort)%list in
  (body <- _request self GET "/me/videos" query None ;;
   lift (items <- dict_get body "data" (JArr []) ;;
         vs <- py_iter items ;;
         videos <- comprehension (_normalize_video) vs ;;
         p <- dict_get body "page" (JInt 1) ;;
         pp <- dict_get body "per_page" (JInt 25) ;;
         t <- dict_get body "total" (JInt 0) ;;
         VideoList_init videos p pp t)%py)%io.

Definition search_videos (self : VimeoClient) (query : string) (page per_page : Z)
  : io VideoList :=
  let query := [("query", JStr query); ("page", JInt page);
                ("per_page", JInt per_page)] in
  (body <- _request self GET "/me/videos" query None ;;
   lift (items <- dict_get body "data" (JArr []) ;;
         vs <- py_iter items ;;
         videos <- comprehension (_normalize_video) vs ;;
         p <- dict_get body "page" (JInt 1) ;;
         pp <- dict_get body "per_page" (JInt 25) ;;
         t <- dict_get body "total" (JInt 0) ;;
         VideoList_init videos p pp t)%py)%io.

Definition get_video (self : VimeoClient) (video_id : string) : io Video :=
  (body <- _request self GET ("/videos/" ++ video_id) [] None ;;
   lift (_normalize_video body))%io.

(** [await client.patch(upload_link, ...)] / [client.put]: httpx takes
    a str for the URL and raises [TypeError] for anything else. *)
Definition transfer (m : Method) (target : json) (bytes : string)
    (hdrs : list (string * string)) : io httpx.Response :=
  match target with
  | JStr u => send {| method := m; url := u; headers := hdrs; params := [];
                      json_body := None; content := Some bytes |}
  | _ => raise TypeError
  end.

(** [resp.status_code not in [200, 201, 204]] *)
Definition needs_fallback (r : httpx.Response) : bool :=
  negb (existsb (Z.eqb (httpx.status_code r)) [200; 201; 204]).

Definition UploadResponse_init (vid : string) (lnk : json) (st : string)
  : result UploadResponse :=
  (l <- validate_HttpUrl L lnk ;;
   Ok {| video_id := vid; upload_link := l; status := st |})%py.

(** The [try] block of [upload_video]: the transfer itself. *)
Definition upload_transfer (target : json) (bytes : string) : io unit :=
  (upload_resp <- transfer PATCH target bytes
                    [("Tus-Resumable", "1.0.0"); ("Upload-Offset", "0");
                     ("Content-Type", "application/offset+octet-stream")] ;;
   upload_resp <- (if needs_fallback upload_resp
                   then transfer PUT target bytes [("Content-Type", "video/mp4")]
                   else ret upload_resp) ;;
   raise_for_status upload_resp)%io.

(** [VimeoClient.upload_video]; [file_obj.read()] gives [bytes]. *)
Definition upload_video (self : VimeoClient) (bytes : string) (size : Z)
  : io UploadResponse :=
  let body := JObj [("upload", JObj [("approach", JStr "post"); ("size", JInt size)]);
                    ("name", JStr "Uploaded via API")] in
  (ticket <- _request self POST "/me/videos" [] (Some body) ;;
   upload <- lift (dict_get ticket "upload" (JObj [])) ;;
   target <- lift (dict_get upload "upload_link" JNull) ;;
   video_uri <- lift (dict_get ticket "uri" JNull) ;;
   video_link <- lift (dict_get ticket "link" JNull) ;;
   if negb (truthy target) then
     raise (HTTPException 500 "Failed to retrieve upload link from Vimeo")
   else
     try_except (upload_transfer target bytes)
       (fun _ => Some (raise (HTTPException 502 "Upload to Vimeo Server failed"))) ;;;
     pieces <- lift (str_split video_uri "/") ;;
     vid <- lift (index_last pieces) ;;
     lift (UploadResponse_init vid video_link "uploaded_pending_transcode"))%io.

End WithLibs.
End vimeo_client.

(** ** The web framework, as far as the handlers use it *)

Inductive Body : Type :=
| Empty
| JsonVideoList (v : VideoList)
| JsonPlayVideo (v : PlayVideoResponse)
| JsonUpload (v : UploadResponse)
| JsonDetail (detail : string)
| JsonValidationErrors
| InternalServerError.

Module starlette.
Record Response : Type := {
  status_code : Z;
  headers : list (string * string);
  body : Body
}.

(** The default of the [status_code] parameter of [RedirectResponse]. *)
Definition RedirectResponse_default_status_code : Z := 307.

Fixpoint header (nm : string) (hs : list (string * string)) : option string :=
  match hs with
  | [] => None
  | (k, v) :: rest => if String.eqb nm k then Some v else header nm rest
  end.
End starlette.

(** What a handler hands back to the framework: a model to serialise,
    or a response of its own. *)
Inductive Returned : Type :=
| ReturnVideoList (v : VideoList)
| ReturnPlayVideo (v : PlayVideoResponse)
| ReturnUpload (v : UploadResponse)
| ReturnResponse (r : starlette.Response).

Module fastapi.
Definition HTTP_200_OK : Z := 200.
Definition HTTP_422_UNPROCESSABLE_ENTITY : Z := 422.
Definition HTTP_500_INTERNAL_SERVER_ERROR : Z := 500.

Definition json_response (code : Z) (b : Body) : starlette.Response :=
  {| starlette.status_code := code;
     starlette.headers := [("content-type", "application/json")];
     starlette.body := b |}.

(** The response the application sends for what the handler did.
    [app/main.py] installs no exception handler, so the framework's own
    apply: an [HTTPException] gives its status and detail, a request
    that fails validation gives 422, any other exception gives 500. *)
Definition respond (r : result Returned) : starlette.Response :=
  match r with
  | Ok (ReturnVideoList v) => json_response HTTP_200_OK (JsonVideoList v)
  | Ok (ReturnPlayVideo v) => json_response HTTP_200_OK (JsonPlayVideo v)
  | Ok (ReturnUpload v) => json_response HTTP_200_OK (JsonUpload v)
  | Ok (ReturnResponse resp) => resp
  | Raise (HTTPException code detail) => json_response code (JsonDetail detail)
  | Raise RequestValidationError =>
      json_response HTTP_422_UNPROCESSABLE_ENTITY JsonValidationErrors
  | Raise _ =>
      {| starlette.status_code := HTTP_500_INTERNAL_SERVER_ERROR;
         starlette.headers := [("content-type", "text/plain; charset=utf-8")];
         starlette.body := InternalServerError |}
  end.

(** One inbound request: the handler runs against the provider with
    no call made yet; the answer and the outbound calls. *)
Definition serve (handler : io Returned) (p : Provider)
  : starlette.Response * list Request :=
  let (r, sent) := handler p [] in (respond r, sent).

Definition invalid {A} : result A := Raise RequestValidationError.

(** [Query(default, ge=lo, le=hi)] on an [int] parameter. *)
Definition Query_int (default : Z) (lo : Z) (hi : option Z) (v : option Z)
  : result Z :=
  let x := match v with Some x => x | None => default end in
  if (lo <=? x) && (match hi with Some h => x <=? h | None => true end)
  then Ok x else invalid.

(** [Query(..., min_length=n)] on a required [str] parameter. *)
Definition Query_required_str (min_length : nat) (v : option string)
  : result string :=
  match v with
  | Some s => if (min_length <=? String.length s)%nat then Ok s else invalid
  | None => invalid
  end.

(** [Literal[...] = Query(default)] *)
Definition Query_literal (allowed : list string) (default : option string)
    (v : option string) : result (option string) :=
  match v with
  | Some s => if existsb (String.eqb s) allowed then Ok (Some s) else invalid
  | None => Ok default
  end.

(** [File(...)]: a required upload. *)
Definition File_required (v : option string) : result string :=
  match v with
  | Some bytes => Ok bytes
  | None => invalid
  end.
End fastapi.

(** ** The handlers ([app/api/routes/videos.py]) *)

Module videos.
Section WithLibs.
Context (L : Libs) (settings : Settings).

(** [get_vimeo_client] *)
Definition get_vimeo_client : VimeoClient := VimeoClient_init settings.

(** [RedirectResponse(url=...)]: no [status_code] is passed; the body is
    empty and the target goes into the [location] header. *)
Definition RedirectResponse (target : string) : starlette.Response :=
  {| starlette.status_code := starlette.RedirectResponse_default_status_code;
     starlette.headers := [("content-length", "0"); ("location", quote L target)];
     starlette.body := Empty |}.

Definition list_videos (page per_page : option Z) (sort : option string)
  : io Returned :=
  (page <- lift (fastapi.Query_int 1 1 None page) ;;
   per_page <- lift (fastapi.Query_int 25 1 (Some 100) per_page) ;;
   sort <- lift (fastapi.Query_literal
                   ["date"; "alphabetical"; "duration"; "last_user_action"]
                   None sort) ;;
   v <- vimeo_client.get_videos L get_vimeo_client page per_page sort ;;
   ret (ReturnVideoList v))%io.

Definition search_videos (q : option string) (page per_page : option Z)
  : io Returned :=
  (q <- lift (fastapi.Query_required_str 1 q) ;;
   page <- lift (fastapi.Query_int 1 1 None page) ;;
   per_page <- lift (fastapi.Query_int 25 1 (Some 100) per_page) ;;
   v <- vimeo_client.search_videos L get_vimeo_client q page per_page ;;
   ret (ReturnVideoList v))%io.

Definition play_video (video_id : string) (mode : option string) : io Returned :=
  (mode <- lift (fastapi.Query_literal ["json"; "redirect"] (Some "json") mode) ;;
   video <- vimeo_client.get_video L get_vimeo_client video_id ;;
   if match mode with Some m => String.eqb m "redirect" | None => false end
   then ret (ReturnResponse (RedirectResponse (link video)))
   else ret (ReturnPlayVideo {| play_link := link video;
                                play_embed_html := embed_html video |}))%io.

(** [file.file.seek(0, 2); size = file.file.tell(); file.file.seek(0)]:
    the size is the number of bytes. *)
Definition upload_video (file : option string) : io Returned :=
  (bytes <- lift (fastapi.File_required file) ;;
   let size := Z.of_nat (String.length bytes) in
   v <- vimeo_client.upload_video L get_vimeo_client bytes size ;;
   ret (ReturnUpload v))%io.

End WithLibs.
End videos.

(** ** The words of the specification, for comparison with the code *)

(** Whether [c] occurs in [s]. *)
Fixpoint occurs (c : ascii) (s : string) : bool :=
  match s with
  | EmptyString => false
  | String c' rest => Ascii.eqb c' c || occurs c rest
  end.

(** "The substring of [s] after its last [/]": [t] is that substring
    when [s] is some prefix, a slash, and [t], with no slash in [t]. *)
Definition after_last_slash (s t : string) : Prop :=
  exists prefix, s = prefix ++ String "/" t /\ occurs "/" t = false.

(** A whitespace character, as [str.isspace] has it on ASCII. *)
Definition is_space (c : ascii) : bool :=
  let n := nat_of_ascii c in
  ((n =? 32) || ((9 <=? n) && (n <=? 13)) || ((28 <=? n) && (n <=? 31)))%nat.

(** [q] is empty or made of whitespace only. *)
Definition blank (q : string) : bool :=
  forallb is_space (list_ascii_of_string q).

(** An instance of [Libs] to run the code on concrete inputs: a URL is
    accepted when it starts with [http://] or [https://] and is kept as
    written, nothing is converted, nothing needs quoting. *)
Definition sample_libs : Libs :=
  {| http_url := fun s =>
       if String.prefix "http://" s || String.prefix "https://" s
       then Some s else None;
     lax_int := fun _ => None;
     lax_bool := fun _ => None;
     quote := fun s => s |}.

Definition sample_settings : Settings :=
  {| VIMEO_ACCESS_TOKEN := "token";
     VIMEO_BASE_URL := "https://api.vimeo.com";
     LOG_LEVEL := "INFO" |}.

Definition sample_record : list (string * json) :=
  [("uri", JStr "/videos/123");
   ("name", JStr "Test Video");
   ("duration", JInt 60);
   ("link", JStr "https://example.com/v/123")].

(** ** Requests and providers the properties speak of *)

Definition sample_client : VimeoClient := VimeoClient_init sample_settings.

(** The request [_request] sends. *)
Definition request_of (self : VimeoClient) (m : Method) (endpoint : string)
    (query : list (string * json)) (body : option json) : Request :=
  {| method := m; url := base_url self ++ endpoint;
     headers := self_headers self; params := query; json_body := body;
     content := None |}.

(** The [params] of [get_videos] without a sort key. *)
Definition list_params (page per_page : Z) : list (string * json) :=
  [("page", JInt page); ("per_page", JInt per_page)].

(** The [body] of the ticket request, and the two transfer requests of
    [upload_video]. *)
Definition ticket_body (size : Z) : json :=
  JObj [("upload", JObj [("approach", JStr "post"); ("size", JInt size)]);
        ("name", JStr "Uploaded via API")].

Definition patch_request (target bytes : string) : Request :=
  {| method := PATCH; url := target;
     headers := [("Tus-Resumable", "1.0.0"); ("Upload-Offset", "0");
                 ("Content-Type", "application/offset+octet-stream")];
     params := []; json_body := None; content := Some bytes |}.

Definition put_request (target bytes : string) : Request :=
  {| method := PUT; url := target;
     headers := [("Content-Type", "video/mp4")];
     params := []; json_body := None; content := Some bytes |}.

(** The error of the [except] clause of [upload_video]. *)
Definition upload_failed : exn :=
  HTTPException 502 "Upload to Vimeo Server failed".

(** A provider that answers every request 200 with [body], and one
    that answers every request with an error status. *)
Definition provider_returning (body : json) : Provider :=
  fun _ _ => Responded {| httpx.status_code := 200; httpx.text := "";
                          httpx.json := Some body |}.

Definition failing_provider (code : Z) (txt : string) : Provider :=
  fun _ _ => Responded {| httpx.status_code := code; httpx.text := txt;
                          httpx.json := None |}.

(** A provider that issues [ticket] and answers the PATCH and the PUT
    with the given statuses. *)
Definition upload_provider (ticket : json) (patch_status put_status : Z)
  : Provider :=
  fun _ req =>
    match method req with
    | PATCH => Responded {| httpx.status_code := patch_status;
                            httpx.text := ""; httpx.json := None |}
    | PUT => Responded {| httpx.status_code := put_status;
                          httpx.text := ""; httpx.json := None |}
    | _ => Responded {| httpx.status_code := 200; httpx.text := "";
                        httpx.json := Some ticket |}
    end.

(** A provider that issues [ticket] and lets every transfer call time
    out. *)
Definition upload_provider_timing_out (ticket : json) : Provider :=
  fun _ req =>
    match method req with
    | PATCH | PUT => Failed httpx.TimeoutException
    | _ => Responded {| httpx.status_code := 200; httpx.text := "";
                        httpx.json := Some ticket |}
    end.

Definition sample_page : json :=
  JObj [("data", JArr [JObj sample_record]); ("page", JInt 2);
        ("per_page", JInt 10); ("total", JInt 11)].

Definition sample_video : Video :=
  {| id := "123"; name := "Test Video"; description := None; duration := 60;
     link := "https://example.com/v/123"; embed_html := None;
     pictures := None |}.

Definition sample_ticket : json :=
  JObj [("uri", JStr "/videos/9");
        ("link", JStr "https://vimeo.com/9");
        ("upload", JObj [("upload_link", JStr "https://upload.example.com/9")])].

(** [sep.join(pieces)], the inverse of [split]. *)
Fixpoint join (sep : ascii) (pieces : list string) : string :=
  match pieces with
  | [] => EmptyString
  | [piece] => piece
  | piece :: rest => piece ++ String sep (join sep rest)
  end.

(** [s.count(sep)] for a one-character separator. *)
Fixpoint count (sep : ascii) (s : string) : nat :=
  match s with
  | EmptyString => O
  | String c rest => if Ascii.eqb c sep then S (count sep rest) else count sep rest
  end.

(** The literals the [sort] parameter of [list_videos] admits. *)
Definition sort_literals : list string :=
  ["date"; "alphabetical"; "duration"; "last_user_action"].

(** The answer to a request that fails validation, and the answer to
    an exception the application does not handle. *)
Definition unprocessable : starlette.Response :=
  fastapi.json_response 422 JsonValidationErrors.

Definition server_error : starlette.Response :=
  {| starlette.status_code := 500;
     starlette.headers := [("content-type", "text/plain; charset=utf-8")];
     starlette.body := InternalServerError |}.

(** The names [Settings] reads. *)
Definition setting_names : list string :=
  ["VIMEO_ACCESS_TOKEN"; "VIMEO_BASE_URL"; "LOG_LEVEL"].

(** A result that fails, if at all, with the given exception. *)
Definition raises_only (e0 : exn) {A} (r : result A) : Prop :=
  forall e, r = Raise e -> e = e0.

(** * Properties *)

(** ** Splitting and the last piece *)

Lemma split_not_nil (sep : ascii) (s : string) : split sep s <> [].
Proof.
  destruct s as [|c rest]; simpl; [discriminate|].
  destruct (Ascii.eqb c sep); [discriminate|].
  destruct (split sep rest); discriminate.
Qed.

Lemma split_without_sep (sep : ascii) (s : string) :
  occurs sep s = false -> split sep s = [s].
Proof.
  induction s as [|c rest IH]; simpl; intros H; [reflexivity|].
  apply orb_false_iff in H as [Hc Hrest].
  rewrite Hc, (IH Hrest). reflexivity.
Qed.

Lemma split_with_sep (sep : ascii) (s : string) :
  occurs sep s = true -> exists p q ps, split sep s = p :: q :: ps.
Proof.
  induction s as [|c rest IH]; simpl; intros H; [discriminate|].
  destruct (Ascii.eqb c sep) eqn:Hc.
  - destruct (split sep rest) as [|q ps] eqn:Hs.
    + now destruct (split_not_nil sep rest).
    + now exists EmptyString, q, ps.
  - simpl in H. destruct (IH H) as (p & q & ps & Hs). rewrite Hs.
    now exists (String c p), q, ps.
Qed.

Lemma index_last_cons {A} (x : A) (l : list A) :
  l <> [] -> index_last (x :: l) = index_last l.
Proof. destruct l; [congruence | reflexivity]. Qed.

Lemma index_last_total {A} (l : list A) :
  l <> [] -> exists x, index_last l = Ok x.
Proof.
  induction l as [|x l IH]; [congruence|]. intros _.
  destruct l as [|y l]; [now exists x|].
  rewrite index_last_cons by discriminate. apply IH. discriminate.
Qed.

(** The last piece of [s.split("/")] has no slash; it is the substring
    after the last slash of [s], or [s] itself when [s] has none. *)
Lemma last_piece_spec (s : string) :
  exists t, index_last (split "/" s) = Ok t /\
            occurs "/" t = false /\
            (occurs "/" s = true -> after_last_slash s t) /\
            (occurs "/" s = false -> t = s).
Proof.
  induction s as [|c rest IH].
  - exists EmptyString. simpl. repeat split; auto; discriminate.
  - destruct IH as (t & Hlast & Hfree & Hin & Hout).
    destruct (occurs "/" rest) eqn:Hrest.
    + (* a later slash: the last piece is that of [rest] *)
      exists t. repeat split; auto.
      * destruct (split_with_sep "/" rest Hrest) as (p & q & ps & Hs).
        simpl. rewrite Hs in *.
        destruct (Ascii.eqb c "/"); rewrite index_last_cons by discriminate;
          [exact Hlast|].
        rewrite index_last_cons in Hlast by discriminate. exact Hlast.
      * intros _. destruct (Hin eq_refl) as (prefix & Heq & _).
        exists (String c prefix). simpl. now rewrite Heq.
      * simpl. rewrite Hrest, orb_true_r. discriminate.
    + (* no later slash *)
      specialize (Hout eq_refl). subst t.
      pose proof (split_without_sep "/" rest Hrest) as Hs.
      destruct (Ascii.eqb c "/") eqn:Hc.
      * apply Ascii.eqb_eq in Hc. subst c.
        exists rest. simpl. rewrite Hs. repeat split; auto.
        -- intros _. now exists EmptyString.
        -- discriminate.
      * exists (String c rest). simpl. rewrite Hc, Hs. simpl.
        rewrite ?Hc, ?Hrest. repeat split; auto. discriminate.
Qed.

Lemma occurs_app (c : ascii) (s t : string) :
  occurs c (s ++ t) = occurs c s || occurs c t.
Proof.
  induction s as [|c' s IH]; simpl; [reflexivity|].
  now rewrite IH, orb_assoc.
Qed.

(** "The substring after the last slash" names one string. *)
Lemma after_last_slash_unique (s t t' : string) :
  after_last_slash s t -> after_last_slash s t' -> t = t'.
Proof.
  intros (p & Hp & Ht) (p' & Hp' & Ht'). subst s.
  revert p' Hp'. induction p as [|c p IH]; intros [|c' p'] H; simpl in H.
  - now injection H.
  - injection H as Hc Hrest. subst c' t.
    rewrite occurs_app in Ht. simpl in Ht. now rewrite orb_true_r in Ht.
  - injection H as Hc Hrest. subst c t'.
    rewrite occurs_app in Ht'. simpl in Ht'. now rewrite orb_true_r in Ht'.
  - injection H as Hc Hrest. eauto.
Qed.

(** ** Normalisation of a provider record *)

Ltac inv_rbind H :=
  repeat match type of H with
  | rbind ?r _ = Ok _ =>
      let E := fresh "E" in
      destruct r eqn:E; simpl in H; [|discriminate H]
  end.

Section Normalisation.
Context (L : Libs).

Local Abbreviation extract_video_id := vimeo_client.extract_video_id.
Local Abbreviation extract_embed_html := vimeo_client.extract_embed_html.
Local Abbreviation video_args := vimeo_client.video_args.
Local Abbreviation _normalize_video := (vimeo_client._normalize_video L).

Lemma normalize_not_dict (d : json) (v : Video) :
  _normalize_video d = Ok v -> exists fields, d = JObj fields.
Proof.
  destruct d; try discriminate. intros _. eauto.
Qed.

(** What a successful normalisation says about each field. *)
Lemma normalize_inv (fields : list (string * json)) (v : Video) :
  _normalize_video (JObj fields) = Ok v ->
  extract_video_id (JObj fields) = Ok (id v) /\
  validate_str (get_default fields "name" (JStr "Untitled")) = Ok (name v) /\
  validate_optional_str (get_default fields "description" JNull)
    = Ok (description v) /\
  validate_int L (get_default fields "duration" (JInt 0)) = Ok (duration v) /\
  validate_HttpUrl L (get_default fields "link" (JStr "")) = Ok (link v) /\
  rbind (extract_embed_html (JObj fields)) validate_optional_str
    = Ok (embed_html v) /\
  validate_optional_Picture L (get_default fields "pictures" JNull)
    = Ok (pictures v).
Proof.
  unfold vimeo_client._normalize_video, vimeo_client.video_args. intros H.
  destruct (extract_video_id (JObj fields)) as [t|] eqn:Hid; [|discriminate H].
  destruct (extract_embed_html (JObj fields)) as [html|] eqn:Hhtml;
    [|discriminate H].
  simpl in H. unfold Video_init in H. simpl in H.
  inv_rbind H. injection H as <-. simpl. repeat split; assumption.
Qed.

(** And back: when every field passes, the record is built. *)
Lemma normalize_intro (fields : list (string * json))
    (i n : string) (d : option string) (t : Z) (l : string)
    (e : option string) (p : option Picture) :
  extract_video_id (JObj fields) = Ok i ->
  validate_str (get_default fields "name" (JStr "Untitled")) = Ok n ->
  validate_optional_str (get_default fields "description" JNull) = Ok d ->
  validate_int L (get_default fields "duration" (JInt 0)) = Ok t ->
  validate_HttpUrl L (get_default fields "link" (JStr "")) = Ok l ->
  rbind (extract_embed_html (JObj fields)) validate_optional_str = Ok e ->
  validate_optional_Picture L (get_default fields "pictures" JNull) = Ok p ->
  _normalize_video (JObj fields)
  = Ok {| id := i; name := n; description := d; duration := t; link := l;
          embed_html := e; pictures := p |}.
Proof.
  intros Hi Hn Hd Ht Hl He Hp.
  unfold vimeo_client._normalize_video, vimeo_client.video_args.
  rewrite Hi. simpl.
  destruct (extract_embed_html (JObj fields)) as [html|]; [|discriminate He].
  simpl in *. unfold Video_init. simpl.
  now rewrite Hn, Hd, Ht, Hl, He, Hp.
Qed.

Lemma extract_video_id_eq (fields : list (string * json)) :
  extract_video_id (JObj fields)
  = rbind (str_split (get_default fields "uri" (JStr "")) "/") index_last.
Proof. reflexivity. Qed.

Lemma extract_video_id_str (fields : list (string * json)) (s : string) :
  get_default fields "uri" (JStr "") = JStr s ->
  extract_video_id (JObj fields) = index_last (split "/" s).
Proof. intros H. rewrite extract_video_id_eq, H. reflexivity. Qed.

Lemma get_default_present fields k dflt v :
  lookup k fields = Some v -> get_default fields k dflt = v.
Proof. unfold get_default. now intros ->. Qed.

Lemma get_default_absent fields k dflt :
  lookup k fields = None -> get_default fields k dflt = dflt.
Proof. unfold get_default. now intros ->. Qed.

(** The steps that compute the id and the embed HTML raise nothing but
    [AttributeError]. *)
Lemma extract_video_id_raises (d : json) (e : exn) :
  extract_video_id d = Raise e -> e = AttributeError.
Proof.
  destruct d as [| | | | |fields]; try (cbv; congruence).
  rewrite extract_video_id_eq.
  destruct (get_default fields "uri" (JStr "")) as [| | |s| |]; simpl;
    try congruence.
  destruct (index_last_total (split "/" s) (split_not_nil _ _)) as (t & ->).
  discriminate.
Qed.

Lemma extract_embed_html_raises (d : json) (e : exn) :
  extract_embed_html d = Raise e -> e = AttributeError.
Proof.
  destruct d as [| | | | |fields]; try (cbv; congruence).
  unfold vimeo_client.extract_embed_html. simpl.
  destruct (get_default fields "embed" (JObj [])); simpl; congruence.
Qed.

End Normalisation.

Example normalize_sample_record :
  vimeo_client._normalize_video sample_libs (JObj sample_record)
  = Ok {| id := "123"; name := "Test Video"; description := None;
          duration := 60; link := "https://example.com/v/123";
          embed_html := None; pictures := None |}.
Proof. reflexivity. Qed.

(** C1.  For a provider record whose [uri] is the string [s], the id is
    computed and is the substring of [s] after its last slash (all of [s]
    when it has none), so it holds no slash.  Every record with the
    same [uri] binding that normalises gets this id, whatever its other
    fields are: the id comes from [uri] alone.  And the record does
    normalise, with this id, as soon as its other fields pass the
    schema. *)
Theorem C1_id_is_last_uri_segment
    (L : Libs) (fields : list (string * json)) (s : string) :
  lookup "uri" fields = Some (JStr s) ->
  exists t,
    vimeo_client.extract_video_id (JObj fields) = Ok t /\
    occurs "/" t = false /\
    (occurs "/" s = true -> after_last_slash s t) /\
    (occurs "/" s = false -> t = s) /\
    (forall fields' v',
        lookup "uri" fields' = lookup "uri" fields ->
        vimeo_client._normalize_video L (JObj fields') = Ok v' ->
        id v' = t) /\
    (forall n d dur l e p,
        validate_str (get_default fields "name" (JStr "Untitled")) = Ok n ->
        validate_optional_str (get_default fields "description" JNull) = Ok d ->
        validate_int L (get_default fields "duration" (JInt 0)) = Ok dur ->
        validate_HttpUrl L (get_default fields "link" (JStr "")) = Ok l ->
        rbind (vimeo_client.extract_embed_html (JObj fields))
          validate_optional_str = Ok e ->
        validate_optional_Picture L (get_default fields "pictures" JNull) = Ok p ->
        vimeo_client._normalize_video L (JObj fields)
        = Ok {| id := t; name := n; description := d; duration := dur;
                link := l; embed_html := e; pictures := p |}).
Proof.
  intros Huri.
  destruct (last_piece_spec s) as (t & Hlast & Hfree & Hin & Hout).
  assert (Hid : vimeo_client.extract_video_id (JObj fields) = Ok t).
  { rewrite (extract_video_id_str fields s); auto using get_default_present. }
  exists t. split; [exact Hid|]. split; [exact Hfree|].
  split; [exact Hin|]. split; [exact Hout|]. split.
  - intros fields' v' Hsame Hnorm.
    apply normalize_inv in Hnorm as (Hid' & _).
    rewrite Huri in Hsame.
    rewrite (extract_video_id_str fields' s) in Hid'
      by auto using get_default_present.
    congruence.
  - intros n d dur l e p Hn Hd Hdur Hl He Hp.
    now apply normalize_intro.
Qed.

Lemma C1_sample_uri_123 :
  vimeo_client.extract_video_id (JObj sample_record) = Ok "123" /\
  after_last_slash "/videos/123" "123" /\
  vimeo_client._normalize_video sample_libs (JObj sample_record)
  = Ok {| id := "123"; name := "Test Video"; description := None;
          duration := 60; link := "https://example.com/v/123";
          embed_html := None; pictures := None |}.
Proof.
  destruct (C1_id_is_last_uri_segment sample_libs sample_record "/videos/123"
              eq_refl) as (t & Hid & _ & Hin & _ & _ & Hnorm).
  assert (Ht : t = "123") by (now injection Hid). subst t.
  split; [exact Hid|]. split; [exact (Hin eq_refl)|].
  exact (Hnorm _ _ _ _ _ _ eq_refl eq_refl eq_refl eq_refl eq_refl eq_refl).
Defined.



(** C9, as the code has it.  Computing the id and the embed HTML of a
    record never raises an index or key error, and raises nothing but
    an attribute error.  With [uri] absent the id is the empty string
    and with [uri] a string the id is computed; with [embed] absent, or
    an object without [html], the embed HTML is null, and with [embed]
    an object it is computed.  A [uri] that is there and is not a
    string, or an [embed] that is there and is not an object, raises
    the attribute error. *)
Theorem C9_extraction_total_on_typed_fields (fields : list (string * json)) :
  (forall d, vimeo_client.extract_video_id d <> Raise IndexError /\
             vimeo_client.extract_video_id d <> Raise KeyError /\
             vimeo_client.extract_embed_html d <> Raise IndexError /\
             vimeo_client.extract_embed_html d <> Raise KeyError) /\
  (lookup "uri" fields = None ->
     vimeo_client.extract_video_id (JObj fields) = Ok "") /\
  (forall s, lookup "uri" fields = Some (JStr s) ->
     exists t, vimeo_client.extract_video_id (JObj fields) = Ok t) /\
  (lookup "embed" fields = None ->
     vimeo_client.extract_embed_html (JObj fields) = Ok JNull) /\
  (forall e, lookup "embed" fields = Some (JObj e) ->
     vimeo_client.extract_embed_html (JObj fields)
     = Ok (get_default e "html" JNull)) /\
  (forall u, lookup "uri" fields = Some u -> (forall s, u <> JStr s) ->
     vimeo_client.extract_video_id (JObj fields) = Raise AttributeError) /\
  (forall u, lookup "embed" fields = Some u -> (forall e, u <> JObj e) ->
     vimeo_client.extract_embed_html (JObj fields) = Raise AttributeError).
Proof.
  repeat split.
  - intros H. now apply extract_video_id_raises in H.
  - intros H. now apply extract_video_id_raises in H.
  - intros H. now apply extract_embed_html_raises in H.
  - intros H. now apply extract_embed_html_raises in H.
  - intros H. rewrite extract_video_id_eq, (get_default_absent _ _ _ H).
    reflexivity.
  - intros s H.
    rewrite (extract_video_id_str fields s) by auto using get_default_present.
    apply index_last_total, split_not_nil.
  - intros H. unfold vimeo_client.extract_embed_html. simpl.
    now rewrite (get_default_absent _ _ _ H).
  - intros e H. unfold vimeo_client.extract_embed_html. simpl.
    now rewrite (get_default_present _ _ _ _ H).
  - intros u H Hu. rewrite extract_video_id_eq, (get_default_present _ _ _ _ H).
    destruct u; try reflexivity. now destruct (Hu s).
  - intros u H Hu. unfold vimeo_client.extract_embed_html. simpl.
    rewrite (get_default_present _ _ _ _ H).
    destruct u; try reflexivity. now destruct (Hu fields0).
Qed.

Lemma C9_record_without_uri_and_embed :
  vimeo_client.extract_video_id (JObj [("link", JStr "https://vimeo.com/7")])
    = Ok "" /\
  vimeo_client.extract_embed_html (JObj [("link", JStr "https://vimeo.com/7")])
    = Ok JNull.
Proof.
  pose proof (C9_extraction_total_on_typed_fields
                [("link", JStr "https://vimeo.com/7")]) as (_ & Hid & _ & He & _).
  exact (conj (Hid eq_refl) (He eq_refl)).
Defined.

(** C9 as stated fails: a record whose [uri] is null has no id, and one
    whose [embed] is null has no embed HTML; both raise. *)
Lemma C9_null_uri_raises :
  vimeo_client.extract_video_id (JObj [("uri", JNull)]) = Raise AttributeError /\
  vimeo_client.extract_embed_html (JObj [("embed", JNull)]) = Raise AttributeError /\
  ~ (forall fields, exists t, vimeo_client.extract_video_id (JObj fields) = Ok t).
Proof.
  repeat split. intros H. destruct (H [("uri", JNull)]) as (t & Ht).
  discriminate Ht.
Qed.

(** ** Settings *)

(** C8.  The access token has no default: when no source has it,
    [Settings()] raises and the application does not start (in
    particular with the variable unset and no [.env] file).  When a
    source has it, the settings load, the base URL is the provider's
    production endpoint when no source sets it, and the log level is
    ["INFO"], the informational level, when no source sets it. *)
Theorem C8_token_required_others_defaulted
    (environ : environment) (dotenv : option environment) :
  (source_value environ dotenv "VIMEO_ACCESS_TOKEN" = None ->
     Settings_init environ dotenv = Raise ValidationError) /\
  (getenv "VIMEO_ACCESS_TOKEN" environ = None ->
     Settings_init environ None = Raise ValidationError) /\
  (forall token,
     source_value environ dotenv "VIMEO_ACCESS_TOKEN" = Some token ->
     exists s,
       Settings_init environ dotenv = Ok s /\
       VIMEO_ACCESS_TOKEN s = token /\
       (source_value environ dotenv "VIMEO_BASE_URL" = None ->
          VIMEO_BASE_URL s = "https://api.vimeo.com") /\
       (source_value environ dotenv "LOG_LEVEL" = None ->
          LOG_LEVEL s = "INFO" /\ log_level s = logging.INFO)).
Proof.
  unfold Settings_init. split; [|split].
  - now intros ->.
  - unfold source_value. now intros ->.
  - intros token ->. eexists. split; [reflexivity|]. simpl.
    split; [reflexivity|]. split.
    + now intros ->.
    + unfold log_level. simpl. now intros ->.
Qed.

Lemma C8_empty_environment_fails_and_token_alone_loads :
  Settings_init [] None = Raise ValidationError /\
  exists s,
    Settings_init [("VIMEO_ACCESS_TOKEN", "abc")] None = Ok s /\
    VIMEO_ACCESS_TOKEN s = "abc" /\
    VIMEO_BASE_URL s = "https://api.vimeo.com" /\
    LOG_LEVEL s = "INFO" /\ log_level s = logging.INFO.
Proof.
  split.
  - exact (proj1 (C8_token_required_others_defaulted [] None) eq_refl).
  - destruct (proj2 (proj2 (C8_token_required_others_defaulted
                              [("VIMEO_ACCESS_TOKEN", "abc")] None))
                "abc" eq_refl) as (s & Hs & Htok & Hurl & Hlog).
    exists s. repeat split; try assumption.
    + exact (Hurl eq_refl).
    + exact (proj1 (Hlog eq_refl)).
    + exact (proj2 (Hlog eq_refl)).
Defined.

(** ** The request wrapper *)

(** What [_request] does, by what the provider does with the request. *)
Lemma request_run (self : VimeoClient) (m : Method) (endpoint : string)
    (query : list (string * json)) (body : option json)
    (p : Provider) (sent : list Request) :
  vimeo_client._request self m endpoint query body p sent =
  (match p sent (request_of self m endpoint query body) with
   | Failed _ => Raise (HTTPException 503 "Service Unavailable")
   | Responded r =>
       if httpx.is_success r then
         match httpx.json r with
         | Some v => Ok v
         | None => Raise JSONDecodeError
         end
       else if httpx.status_code r =? 401 then
         Raise (HTTPException 401 "Invalid Vimeo Token")
       else if httpx.status_code r =? 403 then
         Raise (HTTPException 403 "Permission Denied")
       else if httpx.status_code r =? 404 then
         Raise (HTTPException 404 "Resource Not Found")
       else if httpx.status_code r =? 429 then
         Raise (HTTPException 429 "Rate Limit Exceeded")
       else Raise (HTTPException 502 ("Vimeo API Error: " ++ httpx.text r))
   end,
   (sent ++ [request_of self m endpoint query body])%list).
Proof.
  unfold vimeo_client._request, try_except, bind, send, raise_for_status,
    response_json. fold (request_of self m endpoint query body).
  destruct (p sent (request_of self m endpoint query body)) as [r|e];
    [|reflexivity].
  destruct (httpx.is_success r).
  - unfold ret. destruct (httpx.json r); reflexivity.
  - unfold raise.
    repeat match goal with
           | |- context [if ?b then _ else _] => destruct b
           end; reflexivity.
Qed.

Lemma not_success_of_error_status (r : httpx.Response) :
  400 <= httpx.status_code r -> httpx.is_success r = false.
Proof. unfold httpx.is_success. lia. Qed.

(** A comprehension returns when every item does, item by item. *)
Lemma comprehension_Forall2 {A} (f : json -> result A) (items : list json)
    (out : list A) :
  comprehension f items = Ok out <-> Forall2 (fun x a => f x = Ok a) items out.
Proof.
  revert out. induction items as [|x rest IH]; intros out; simpl.
  - split.
    + intros [= <-]. constructor.
    + intros H. inversion H. reflexivity.
  - split.
    + intros H. inv_rbind H. injection H as <-.
      constructor; [assumption|]. now apply IH.
    + intros H. inversion H as [|? a ? out' Hx Hrest]; subst.
      rewrite Hx. simpl. apply IH in Hrest. now rewrite Hrest.
Qed.

(** ** Listing and searching *)

Section Listing.
Context (L : Libs).

Lemma get_videos_run (self : VimeoClient) (page per_page : Z)
    (sort : option string) (p : Provider) (sent : list Request) :
  vimeo_client.get_videos L self page per_page sort p sent =
  let R := vimeo_client._request self GET "/me/videos"
             (list_params page per_page ++ vimeo_client.sort_param sort)%list
             None p sent in
  (rbind (fst R) (vimeo_client.video_list_of L), snd R).
Proof.
  unfold vimeo_client.get_videos, bind, lift, list_params.
  destruct (vimeo_client._request _ _ _ _ _ p sent) as [[body|e] tr];
    reflexivity.
Qed.

Lemma search_videos_run (self : VimeoClient) (query : string)
    (page per_page : Z) (p : Provider) (sent : list Request) :
  vimeo_client.search_videos L self query page per_page p sent =
  let R := vimeo_client._request self GET "/me/videos"
             (("query", JStr query) :: list_params page per_page) None p sent in
  (rbind (fst R) (vimeo_client.video_list_of L), snd R).
Proof.
  unfold vimeo_client.search_videos, bind, lift, list_params.
  destruct (vimeo_client._request _ _ _ _ _ p sent) as [[body|e] tr];
    reflexivity.
Qed.

(** What a [VideoList] built from a body says about the envelope. *)
Lemma video_list_of_inv (fields : list (string * json)) (vl : VideoList) :
  vimeo_client.video_list_of L (JObj fields) = Ok vl ->
  (exists items,
      py_iter (get_default fields "data" (JArr [])) = Ok items /\
      comprehension (vimeo_client._normalize_video L) items = Ok (data vl)) /\
  validate_int L (get_default fields "page" (JInt 1)) = Ok (page vl) /\
  validate_int L (get_default fields "per_page" (JInt 25)) = Ok (per_page vl) /\
  validate_int L (get_default fields "total" (JInt 0)) = Ok (total vl).
Proof.
  unfold vimeo_client.video_list_of, vimeo_client.VideoList_init. simpl.
  intros H. inv_rbind H. injection H as <-. simpl. repeat split; eauto.
Qed.

Lemma video_list_of_intro (fields : list (string * json))
    (items : list json) (videos : list Video) (a b c : Z) :
  py_iter (get_default fields "data" (JArr [])) = Ok items ->
  comprehension (vimeo_client._normalize_video L) items = Ok videos ->
  validate_int L (get_default fields "page" (JInt 1)) = Ok a ->
  validate_int L (get_default fields "per_page" (JInt 25)) = Ok b ->
  validate_int L (get_default fields "total" (JInt 0)) = Ok c ->
  vimeo_client.video_list_of L (JObj fields)
  = Ok {| data := videos; page := a; per_page := b; total := c |}.
Proof.
  intros Hi Hv Ha Hb Hc.
  unfold vimeo_client.video_list_of, vimeo_client.VideoList_init. simpl.
  now rewrite Hi; simpl; rewrite Hv; simpl; rewrite Ha, Hb, Hc.
Qed.

Lemma video_list_of_not_dict (body : json) (vl : VideoList) :
  vimeo_client.video_list_of L body = Ok vl -> exists fields, body = JObj fields.
Proof. destruct body; try discriminate. eauto. Qed.

(** C10.  [get_videos] without a sort key and [search_videos] send the
    same GET to the same listing endpoint with the same headers, the
    search with one more parameter, [query], in front of [page] and
    [per_page].  When the provider treats the two requests alike, the
    two operations end alike, and on a success answer with a JSON
    object both give the same thing: the items of [data], each passed
    through [_normalize_video], with [page], [per_page] and [total]
    read from the body and defaulted to 1, 25 and 0.  So a body without
    these three gives, from both, the normalised items in the envelope
    1, 25, 0. *)
Theorem C10_search_and_list_agree
    (self : VimeoClient) (query : string) (req_page req_per_page : Z)
    (p p' : Provider) (sent sent' : list Request) :
  let listing := request_of self GET "/me/videos"
                   (list_params req_page req_per_page) None in
  let search := request_of self GET "/me/videos"
                  (("query", JStr query) :: list_params req_page req_per_page)
                  None in
  let listed := vimeo_client.get_videos L self req_page req_per_page None p sent in
  let found := vimeo_client.search_videos L self query req_page req_per_page
                 p' sent' in
  p sent listing = p' sent' search ->
  fst listed = fst found /\
  snd listed = (sent ++ [listing])%list /\
  snd found = (sent' ++ [search])%list /\
  method search = method listing /\ url search = url listing /\
  headers search = headers listing /\
  params search = ("query", JStr query) :: params listing /\
  (forall r fields,
      p sent listing = Responded r -> httpx.is_success r = true ->
      httpx.json r = Some (JObj fields) ->
      let common :=
        (vs <- py_iter (get_default fields "data" (JArr [])) ;;
         videos <- comprehension (vimeo_client._normalize_video L) vs ;;
         a <- validate_int L (get_default fields "page" (JInt 1)) ;;
         b <- validate_int L (get_default fields "per_page" (JInt 25)) ;;
         c <- validate_int L (get_default fields "total" (JInt 0)) ;;
         Ok {| data := videos; page := a; per_page := b; total := c |})%py in
      fst listed = common /\ fst found = common) /\
  (forall r fields items videos,
      p sent listing = Responded r -> httpx.is_success r = true ->
      httpx.json r = Some (JObj fields) ->
      py_iter (get_default fields "data" (JArr [])) = Ok items ->
      Forall2 (fun x v => vimeo_client._normalize_video L x = Ok v) items videos ->
      lookup "page" fields = None -> lookup "per_page" fields = None ->
      lookup "total" fields = None ->
      fst listed = Ok {| data := videos; page := 1; per_page := 25; total := 0 |} /\
      fst found = Ok {| data := videos; page := 1; per_page := 25; total := 0 |}).
Proof.
  intros listing search listed found Hsame. subst listed found.
  rewrite get_videos_run, search_videos_run. cbv zeta.
  unfold vimeo_client.sort_param. rewrite app_nil_r, !request_run.
  cbn [fst snd]. fold listing search. rewrite <- Hsame.
  split; [reflexivity|]. split; [reflexivity|]. split; [reflexivity|].
  split; [reflexivity|]. split; [reflexivity|]. split; [reflexivity|].
  split; [reflexivity|]. split.
  - intros r fields Hr Hok Hjson. rewrite Hr, Hok, Hjson. split; reflexivity.
  - intros r fields items videos Hr Hok Hjson Hitems Hvideos Hpage Hper Htotal.
    rewrite Hr, Hok, Hjson. cbn [rbind].
    assert (Hlist : vimeo_client.video_list_of L (JObj fields)
                    = Ok {| data := videos; page := 1; per_page := 25;
                            total := 0 |}).
    { apply video_list_of_intro with (items := items); auto.
      - now apply comprehension_Forall2.
      - now rewrite (get_default_absent _ _ _ Hpage).
      - now rewrite (get_default_absent _ _ _ Hper).
      - now rewrite (get_default_absent _ _ _ Htotal). }
    split; exact Hlist.
Qed.

End Listing.

Lemma C10_same_body_same_list :
  fst (vimeo_client.get_videos sample_libs sample_client 2 10 None
         (provider_returning sample_page) [])
  = Ok {| data := [sample_video]; page := 2; per_page := 10; total := 11 |} /\
  fst (vimeo_client.search_videos sample_libs sample_client "test" 2 10
         (provider_returning sample_page) [])
  = Ok {| data := [sample_video]; page := 2; per_page := 10; total := 11 |}.
Proof.
  destruct (C10_search_and_list_agree sample_libs sample_client "test" 2 10
              (provider_returning sample_page) (provider_returning sample_page)
              [] [] eq_refl) as (_ & _ & _ & _ & _ & _ & _ & Hcommon & _).
  exact (Hcommon _ _ eq_refl eq_refl eq_refl).
Defined.

Example get_videos_sample_page :
  fst (vimeo_client.get_videos sample_libs sample_client 2 10 None
         (provider_returning sample_page) [])
  = Ok {| data := [{| id := "123"; name := "Test Video"; description := None;
                      duration := 60; link := "https://example.com/v/123";
                      embed_html := None; pictures := None |}];
          page := 2; per_page := 10; total := 11 |}.
Proof. reflexivity. Qed.

(** ** The handlers *)

Section Handlers.
Context (L : Libs) (settings : Settings).

Local Abbreviation client := (VimeoClient_init settings).

Lemma get_videos_ok_inv (self : VimeoClient) (page per_page : Z)
    (p : Provider) (sent : list Request) (vl : VideoList) :
  fst (vimeo_client.get_videos L self page per_page None p sent) = Ok vl ->
  exists r fields,
    p sent (request_of self GET "/me/videos" (list_params page per_page) None)
      = Responded r /\
    httpx.is_success r = true /\ httpx.json r = Some (JObj fields) /\
    vimeo_client.video_list_of L (JObj fields) = Ok vl.
Proof.
  rewrite get_videos_run. cbv zeta. unfold vimeo_client.sort_param.
  rewrite app_nil_r, request_run. cbn [fst].
  destruct (p sent _) as [r|e]; [|discriminate].
  destruct (httpx.is_success r) eqn:Hok.
  - destruct (httpx.json r) as [body|] eqn:Hjson; [|discriminate]. simpl.
    intros H.
    destruct (video_list_of_not_dict L body vl H) as (fields & ->).
    exists r, fields. auto.
  - repeat match goal with
           | |- context [if ?b then _ else _] => destruct b
           end; discriminate.
Qed.

Lemma list_videos_serve (page per_page : Z) (p : Provider) :
  1 <= page -> 1 <= per_page <= 100 ->
  fastapi.serve (videos.list_videos L settings (Some page) (Some per_page) None) p
  = let R := vimeo_client.get_videos L client page per_page None p [] in
    (fastapi.respond (rbind (fst R) (fun v => Ok (ReturnVideoList v))), snd R).
Proof.
  intros Hpage Hper.
  unfold fastapi.serve, videos.list_videos, bind, lift, fastapi.Query_int,
    videos.get_vimeo_client.
  replace (1 <=? page) with true by lia.
  replace (1 <=? per_page) with true by lia.
  replace (per_page <=? 100) with true by lia. simpl.
  destruct (vimeo_client.get_videos L client page per_page None p [])
    as [[vl|e] tr]; reflexivity.
Qed.

Lemma respond_video_list_inv (r : result VideoList) (vl : VideoList) :
  starlette.body (fastapi.respond (rbind r (fun v => Ok (ReturnVideoList v))))
    = JsonVideoList vl ->
  r = Ok vl.
Proof.
  destruct r as [v|e]; simpl.
  - now intros [= ->].
  - destruct e; discriminate.
Qed.


End Handlers.



Section SearchAndPlay.
Context (L : Libs) (settings : Settings).

Local Abbreviation client := (VimeoClient_init settings).

Lemma search_videos_serve (q : string) (req_page req_per_page : option Z)
    (pg per : Z) (p : Provider) :
  q <> "" ->
  fastapi.Query_int 1 1 None req_page = Ok pg ->
  fastapi.Query_int 25 1 (Some 100) req_per_page = Ok per ->
  fastapi.serve (videos.search_videos L settings (Some q) req_page req_per_page) p
  = let R := vimeo_client.search_videos L client q pg per p [] in
    (fastapi.respond (rbind (fst R) (fun v => Ok (ReturnVideoList v))), snd R).
Proof.
  intros Hq Hpage Hper.
  unfold fastapi.serve, videos.search_videos, bind, lift,
    fastapi.Query_required_str, videos.get_vimeo_client.
  destruct q as [|c q]; [congruence|]. simpl String.length. cbn [Nat.leb].
  rewrite Hpage, Hper.
  destruct (vimeo_client.search_videos L client _ pg per p [])
    as [[vl|e] tr]; reflexivity.
Qed.

(** C3, as the code has it.  A search request whose [q] is missing or
    empty is answered 422 and no call goes to the provider.  Any other
    [q], one made of whitespace too, passes, and with valid [page] and
    [per_page] it is sent to the provider as the [query] parameter in
    one listing call. *)
Theorem C3_empty_query_rejected_before_any_call
    (req_page req_per_page : option Z) (p : Provider) :
  (forall q, q = None \/ q = Some "" ->
     fastapi.serve (videos.search_videos L settings q req_page req_per_page) p
     = (fastapi.json_response 422 JsonValidationErrors, [])) /\
  (forall q pg per,
     q <> "" ->
     fastapi.Query_int 1 1 None req_page = Ok pg ->
     fastapi.Query_int 25 1 (Some 100) req_per_page = Ok per ->
     snd (fastapi.serve
            (videos.search_videos L settings (Some q) req_page req_per_page) p)
     = [request_of client GET "/me/videos"
          (("query", JStr q) :: list_params pg per) None]).
Proof.
  split.
  - intros q [-> | ->]; reflexivity.
  - intros q pg per Hq Hpage Hper.
    rewrite (search_videos_serve q req_page req_per_page pg per p Hq Hpage Hper).
    cbv zeta. cbn [snd]. rewrite search_videos_run. cbv zeta.
    now rewrite request_run.
Qed.

Lemma get_video_run (self : VimeoClient) (video_id : string)
    (p : Provider) (sent : list Request) :
  vimeo_client.get_video L self video_id p sent =
  let R := vimeo_client._request self GET ("/videos/" ++ video_id) [] None p sent in
  (rbind (fst R) (vimeo_client._normalize_video L), snd R).
Proof.
  unfold vimeo_client.get_video, bind, lift.
  destruct (vimeo_client._request _ _ _ _ _ p sent) as [[body|e] tr];
    reflexivity.
Qed.

(** C4, as the code runs.  When the provider returns a record for the
    video id and it normalises to [v], play makes that one call and
    answers: in [redirect] mode with the default status of
    [RedirectResponse], 307 and not 302, a [location] header holding
    the link of [v] as Starlette quotes it, and an empty body; in
    [json] mode, which is the default, with 200 and a body of exactly
    the link and the embed HTML of [v]. *)
Theorem C4_play_video_responses
    (video_id : string) (p : Provider) (v : Video) :
  fst (vimeo_client.get_video L client video_id p []) = Ok v ->
  let call := [request_of client GET ("/videos/" ++ video_id) [] None] in
  let redirect := fastapi.serve
                    (videos.play_video L settings video_id (Some "redirect")) p in
  let info := {| play_link := link v; play_embed_html := embed_html v |} in
  snd redirect = call /\
  starlette.status_code (fst redirect) = 307 /\
  starlette.status_code (fst redirect) <> 302 /\
  starlette.header "location" (starlette.headers (fst redirect))
    = Some (quote L (link v)) /\
  starlette.body (fst redirect) = Empty /\
  fastapi.serve (videos.play_video L settings video_id (Some "json")) p
    = (fastapi.json_response 200 (JsonPlayVideo info), call) /\
  fastapi.serve (videos.play_video L settings video_id None) p
    = (fastapi.json_response 200 (JsonPlayVideo info), call).
Proof.
  intros Hv call redirect info. subst redirect.
  unfold fastapi.serve, videos.play_video, bind, lift, videos.get_vimeo_client.
  simpl.
  assert (Hcall : snd (vimeo_client.get_video L client video_id p []) = call).
  { rewrite get_video_run. cbv zeta. now rewrite request_run. }
  destruct (vimeo_client.get_video L client video_id p []) as [r tr].
  simpl in Hv, Hcall. subst r tr. simpl.
  repeat split. discriminate.
Qed.

End SearchAndPlay.

Lemma C3_empty_query_gives_422 :
  fastapi.serve (videos.search_videos sample_libs sample_settings (Some "")
                   (Some 1) (Some 25))
    (provider_returning sample_page)
  = (fastapi.json_response 422 JsonValidationErrors, []).
Proof.
  exact (proj1 (C3_empty_query_rejected_before_any_call sample_libs
                  sample_settings (Some 1) (Some 25)
                  (provider_returning sample_page))
           (Some "") (or_intror eq_refl)).
Defined.

(** C3 as stated fails: an empty [q] is answered 422, not 400; and a
    [q] of one space is not rejected at all, the provider is called and
    the answer is 200. *)
Lemma C3_blank_query_reaches_provider :
  blank "" = true /\
  starlette.status_code
    (fst (fastapi.serve
            (videos.search_videos sample_libs sample_settings (Some "")
               (Some 1) (Some 25))
            (provider_returning sample_page))) <> 400 /\
  blank " " = true /\
  starlette.status_code
    (fst (fastapi.serve
            (videos.search_videos sample_libs sample_settings (Some " ")
               (Some 1) (Some 25))
            (provider_returning sample_page))) = 200 /\
  snd (fastapi.serve
         (videos.search_videos sample_libs sample_settings (Some " ")
            (Some 1) (Some 25))
         (provider_returning sample_page))
  = [request_of sample_client GET "/me/videos"
       [("query", JStr " "); ("page", JInt 1); ("per_page", JInt 25)] None].
Proof.
  repeat split. discriminate.
Qed.

Lemma C4_sample_redirect_is_307 :
  let redirect :=
    fastapi.serve
      (videos.play_video sample_libs sample_settings "123" (Some "redirect"))
      (provider_returning (JObj sample_record)) in
  starlette.status_code (fst redirect) = 307 /\
  starlette.header "location" (starlette.headers (fst redirect))
    = Some "https://example.com/v/123" /\
  starlette.body (fst redirect) = Empty /\
  fastapi.serve (videos.play_video sample_libs sample_settings "123" None)
    (provider_returning (JObj sample_record))
  = (fastapi.json_response 200
       (JsonPlayVideo {| play_link := "https://example.com/v/123";
                         play_embed_html := None |}),
     [request_of sample_client GET "/videos/123" [] None]).
Proof.
  pose proof (C4_play_video_responses sample_libs sample_settings "123"
                (provider_returning (JObj sample_record)) sample_video eq_refl)
    as (_ & Hstatus & _ & Hloc & Hbody & _ & Hjson).
  exact (conj Hstatus (conj Hloc (conj Hbody Hjson))).
Defined.

(** ** Upload *)

Section Upload.
Context (L : Libs).

(** The transfer, by what the provider does with the PATCH and, when
    it is sent, with the PUT. *)
Lemma upload_transfer_run (target bytes : string) (p : Provider)
    (sent : list Request) :
  vimeo_client.upload_transfer (JStr target) bytes p sent =
  let patch := patch_request target bytes in
  let put := put_request target bytes in
  match p sent patch with
  | Failed e => (Raise (RequestError e), (sent ++ [patch])%list)
  | Responded r1 =>
      if vimeo_client.needs_fallback r1 then
        match p (sent ++ [patch])%list put with
        | Failed e => (Raise (RequestError e), ((sent ++ [patch]) ++ [put])%list)
        | Responded r2 =>
            (if httpx.is_success r2 then Ok tt else Raise (HTTPStatusError r2),
             ((sent ++ [patch]) ++ [put])%list)
        end
      else
        (if httpx.is_success r1 then Ok tt else Raise (HTTPStatusError r1),
         (sent ++ [patch])%list)
  end.
Proof.
  unfold vimeo_client.upload_transfer, vimeo_client.transfer, bind, send,
    raise_for_status. cbv zeta.
  fold (patch_request target bytes). fold (put_request target bytes).
  destruct (p sent (patch_request target bytes)) as [r1|e]; [|reflexivity].
  destruct (vimeo_client.needs_fallback r1).
  - destruct (p (sent ++ [patch_request target bytes])%list
                (put_request target bytes)) as [r2|e]; [|reflexivity].
    destruct (httpx.is_success r2); reflexivity.
  - unfold ret. destruct (httpx.is_success r1); reflexivity.
Qed.

Lemma non_success_needs_fallback (r : httpx.Response) :
  httpx.is_success r = false -> vimeo_client.needs_fallback r = true.
Proof.
  unfold httpx.is_success, vimeo_client.needs_fallback. simpl. intros H.
  destruct (httpx.status_code r =? 200) eqn:E200; [lia|].
  destruct (httpx.status_code r =? 201) eqn:E201; [lia|].
  destruct (httpx.status_code r =? 204) eqn:E204; [lia|].
  reflexivity.
Qed.

(** [upload_video] once the ticket is in hand with a usable link. *)
Lemma upload_video_run_with_ticket (self : VimeoClient) (bytes : string)
    (size : Z) (p : Provider) (sent : list Request)
    (r0 : httpx.Response) (fields upload : list (string * json))
    (target : string) :
  let ticket := request_of self POST "/me/videos" [] (Some (ticket_body size)) in
  p sent ticket = Responded r0 -> httpx.is_success r0 = true ->
  httpx.json r0 = Some (JObj fields) ->
  get_default fields "upload" (JObj []) = JObj upload ->
  get_default upload "upload_link" JNull = JStr target ->
  target <> "" ->
  vimeo_client.upload_video L self bytes size p sent =
  let T := vimeo_client.upload_transfer (JStr target) bytes p
             (sent ++ [ticket])%list in
  match fst T with
  | Ok _ =>
      ((pieces <- str_split (get_default fields "uri" JNull) "/" ;;
        vid <- index_last pieces ;;
        vimeo_client.UploadResponse_init L vid (get_default fields "link" JNull)
          "uploaded_pending_transcode")%py,
       snd T)
  | Raise _ => (Raise upload_failed, snd T)
  end.
Proof.
  intros ticket Hp Hok Hjson Hupload Htarget Hne.
  unfold vimeo_client.upload_video. fold (ticket_body size).
  unfold bind at 1. rewrite request_run. fold ticket.
  rewrite Hp, Hok, Hjson.
  unfold bind, lift. simpl dict_get. cbv iota beta.
  rewrite Hupload. simpl dict_get. cbv iota beta. rewrite Htarget.
  assert (Htruthy : truthy (JStr target) = true).
  { simpl. destruct target; [congruence|reflexivity]. }
  rewrite Htruthy. cbn [negb]. unfold try_except.
  destruct (vimeo_client.upload_transfer (JStr target) bytes p
              (sent ++ [ticket])%list) as [[[]|e] tr]; cbn [fst snd].
  - unfold rbind.
    destruct (str_split (get_default fields "uri" JNull) "/") as [pieces|];
      [|reflexivity].
    destruct (index_last pieces); reflexivity.
  - reflexivity.
Qed.

End Upload.

Section RequestErrors.
Context (L : Libs).

(** A transfer that raises, whatever it raises, ends the upload with
    the 502 error. *)
Lemma upload_transfer_failure_is_502 (self : VimeoClient) (bytes : string)
    (size : Z) (p : Provider) (sent : list Request)
    (r0 : httpx.Response) (fields upload : list (string * json))
    (target : string) (e : exn) (tr : list Request) :
  let ticket := request_of self POST "/me/videos" [] (Some (ticket_body size)) in
  p sent ticket = Responded r0 -> httpx.is_success r0 = true ->
  httpx.json r0 = Some (JObj fields) ->
  get_default fields "upload" (JObj []) = JObj upload ->
  get_default upload "upload_link" JNull = JStr target -> target <> "" ->
  vimeo_client.upload_transfer (JStr target) bytes p (sent ++ [ticket])%list
    = (Raise e, tr) ->
  vimeo_client.upload_video L self bytes size p sent = (Raise upload_failed, tr).
Proof.
  intros ticket Hp Hok Hjson Hupload Htarget Hne Htransfer.
  rewrite (upload_video_run_with_ticket L self bytes size p sent r0 fields
             upload target Hp Hok Hjson Hupload Htarget Hne).
  cbv zeta. fold ticket. now rewrite Htransfer.
Qed.

(** C2, as the code has it.  A provider call made through [_request]
    (list, search, get by id, the ticket of an upload) that fails
    raises the error its failure kind fixes, after that one call and no
    other: status 401 gives 401, 403 gives 403, 404 gives 404, 429 gives
    429, any other status from 400 to 599 gives 502 with the body text
    of the provider in the detail, and a failure of the transport (a
    timeout, a refused connection, ...) gives 503; the operation that
    made the call goes no further and raises that same error.  The
    transfer calls of an upload, the PATCH and the PUT, do not go
    through [_request]: a failure of the transport on either, and an
    error status on both, are raised as the 502 of a failed upload,
    whatever the failure kind. *)
Theorem C2_request_error_mapping
    (self : VimeoClient) (m : Method) (endpoint : string)
    (query : list (string * json)) (body : option json)
    (p : Provider) (sent : list Request) :
  let req := request_of self m endpoint query body in
  let run := vimeo_client._request self m endpoint query body p sent in
  (forall e, p sent req = Failed e ->
     run = (Raise (HTTPException 503 "Service Unavailable"), (sent ++ [req])%list)) /\
  (forall r, p sent req = Responded r -> httpx.status_code r = 401 ->
     run = (Raise (HTTPException 401 "Invalid Vimeo Token"), (sent ++ [req])%list)) /\
  (forall r, p sent req = Responded r -> httpx.status_code r = 403 ->
     run = (Raise (HTTPException 403 "Permission Denied"), (sent ++ [req])%list)) /\
  (forall r, p sent req = Responded r -> httpx.status_code r = 404 ->
     run = (Raise (HTTPException 404 "Resource Not Found"), (sent ++ [req])%list)) /\
  (forall r, p sent req = Responded r -> httpx.status_code r = 429 ->
     run = (Raise (HTTPException 429 "Rate Limit Exceeded"), (sent ++ [req])%list)) /\
  (forall r, p sent req = Responded r ->
     400 <= httpx.status_code r <= 599 ->
     httpx.status_code r <> 401 -> httpx.status_code r <> 403 ->
     httpx.status_code r <> 404 -> httpx.status_code r <> 429 ->
     run = (Raise (HTTPException 502 ("Vimeo API Error: " ++ httpx.text r)),
            (sent ++ [req])%list)) /\
  (forall (A : Type) (k : json -> io A) e tr,
     run = (Raise e, tr) ->
     bind (vimeo_client._request self m endpoint query body) k p sent
     = (Raise e, tr)) /\
  (forall bytes size r0 fields upload target,
     let ticket := request_of self POST "/me/videos" [] (Some (ticket_body size)) in
     let patch := patch_request target bytes in
     let put := put_request target bytes in
     let upload_run := vimeo_client.upload_video L self bytes size p sent in
     p sent ticket = Responded r0 -> httpx.is_success r0 = true ->
     httpx.json r0 = Some (JObj fields) ->
     get_default fields "upload" (JObj []) = JObj upload ->
     get_default upload "upload_link" JNull = JStr target -> target <> "" ->
     (forall e, p (sent ++ [ticket])%list patch = Failed e ->
        upload_run = (Raise upload_failed, (sent ++ [ticket; patch])%list)) /\
     (forall r1, p (sent ++ [ticket])%list patch = Responded r1 ->
        httpx.is_success r1 = false ->
        (forall e, p (sent ++ [ticket; patch])%list put = Failed e ->
           upload_run = (Raise upload_failed, (sent ++ [ticket; patch; put])%list)) /\
        (forall r2, p (sent ++ [ticket; patch])%list put = Responded r2 ->
           httpx.is_success r2 = false ->
           upload_run
           = (Raise upload_failed, (sent ++ [ticket; patch; put])%list)))).
Proof.
  intros req run. subst run.
  assert (Hbind : forall (A : Type) (k : json -> io A) e tr,
             vimeo_client._request self m endpoint query body p sent
               = (Raise e, tr) ->
             bind (vimeo_client._request self m endpoint query body) k p sent
             = (Raise e, tr)).
  { intros A k e tr H. unfold bind. now rewrite H. }
  rewrite request_run in *. fold req in Hbind |- *.
  split; [|split; [|split; [|split; [|split; [|split; [|split;
    [exact Hbind|]]]]]]].
  - now intros e ->.
  - intros r -> H. rewrite not_success_of_error_status by lia. now rewrite H.
  - intros r -> H. rewrite not_success_of_error_status by lia. now rewrite H.
  - intros r -> H. rewrite not_success_of_error_status by lia. now rewrite H.
  - intros r -> H. rewrite not_success_of_error_status by lia. now rewrite H.
  - intros r -> Hrange H401 H403 H404 H429.
    rewrite not_success_of_error_status by lia.
    apply Z.eqb_neq in H401, H403, H404, H429.
    now rewrite H401, H403, H404, H429.
  - intros bytes size r0 fields upload target ticket patch put upload_run
      Hp Hok Hjson Hupload Htarget Hne.
    subst upload_run.
    assert (Hfail : forall e tr,
               vimeo_client.upload_transfer (JStr target) bytes p
                 (sent ++ [ticket])%list = (Raise e, tr) ->
               vimeo_client.upload_video L self bytes size p sent
               = (Raise upload_failed, tr)).
    { intros e tr. now apply (upload_transfer_failure_is_502 self bytes size p
                                sent r0 fields upload target e tr). }
    assert (Happ2 : ((sent ++ [ticket]) ++ [patch])%list
                    = (sent ++ [ticket; patch])%list)
      by (now rewrite <- app_assoc).
    assert (Happ3 : (((sent ++ [ticket]) ++ [patch]) ++ [put])%list
                    = (sent ++ [ticket; patch; put])%list)
      by (now rewrite <- !app_assoc).
    split.
    + intros e H1. apply (Hfail (RequestError e)).
      rewrite upload_transfer_run. cbv zeta. fold patch.
      now rewrite H1, Happ2.
    + intros r1 H1 Hbad. split.
      * intros e H2. apply (Hfail (RequestError e)).
        rewrite upload_transfer_run. cbv zeta. fold patch put.
        rewrite H1, (non_success_needs_fallback r1 Hbad), Happ2, H2.
        now rewrite <- Happ3, Happ2.
      * intros r2 H2 Hbad2. apply (Hfail (HTTPStatusError r2)).
        rewrite upload_transfer_run. cbv zeta. fold patch put.
        rewrite H1, (non_success_needs_fallback r1 Hbad), Happ2, H2, Hbad2.
        now rewrite <- Happ3, Happ2.
Qed.

End RequestErrors.

Lemma C2_status_500_and_transfer_timeout :
  vimeo_client._request sample_client GET "/videos/1" [] None
    (failing_provider 500 "boom") []
  = (Raise (HTTPException 502 "Vimeo API Error: boom"),
     [request_of sample_client GET "/videos/1" [] None]) /\
  vimeo_client.upload_video sample_libs sample_client "bytes" 5
    (upload_provider_timing_out sample_ticket) []
  = (Raise upload_failed,
     [request_of sample_client POST "/me/videos" [] (Some (ticket_body 5));
      patch_request "https://upload.example.com/9" "bytes"]).
Proof.
  split.
  - refine (proj1 (proj2 (proj2 (proj2 (proj2 (proj2
              (C2_request_error_mapping sample_libs sample_client GET
                 "/videos/1" [] None (failing_provider 500 "boom") []))))))
              _ eq_refl _ _ _ _ _); simpl; lia.
  - refine (proj1 (proj2 (proj2 (proj2 (proj2 (proj2 (proj2 (proj2
              (C2_request_error_mapping sample_libs sample_client POST
                 "/me/videos" [] (Some (ticket_body 5))
                 (upload_provider_timing_out sample_ticket) [])))))))
              "bytes" 5 _ _ _ "https://upload.example.com/9"
              eq_refl eq_refl eq_refl eq_refl eq_refl _)
              httpx.TimeoutException eq_refl).
    discriminate.
Defined.

(** C2 as stated fails for the transfer calls of an upload: a PATCH
    that times out is a failed provider call and is raised as 502, not
    503, and a PATCH and PUT both refused with 401 are raised as 502,
    not 401. *)
Lemma C2_transfer_failures_are_502 :
  upload_provider_timing_out sample_ticket
    [request_of sample_client POST "/me/videos" [] (Some (ticket_body 5))]
    (patch_request "https://upload.example.com/9" "bytes")
  = Failed httpx.TimeoutException /\
  fst (vimeo_client.upload_video sample_libs sample_client "bytes" 5
         (upload_provider_timing_out sample_ticket) [])
  = Raise (HTTPException 502 "Upload to Vimeo Server failed") /\
  fst (fastapi.serve
         (videos.upload_video sample_libs sample_settings (Some "bytes"))
         (upload_provider_timing_out sample_ticket))
  = fastapi.json_response 502 (JsonDetail "Upload to Vimeo Server failed") /\
  502 <> 503 /\
  fst (vimeo_client.upload_video sample_libs sample_client "bytes" 5
         (upload_provider sample_ticket 401 401) [])
  = Raise (HTTPException 502 "Upload to Vimeo Server failed") /\
  502 <> 401.
Proof.
  repeat split; discriminate.
Qed.

Section UploadClaims.
Context (L : Libs).

(** C5, as the code has it.  With the ticket in hand and a usable
    upload link: when the first transfer attempt, a PATCH, is answered
    with a non-success status, one more attempt is made, a PUT, and no
    other; when that attempt too is answered with a non-success status,
    or fails in the transport, the upload fails.  Whenever the transfer
    raises anything (and so too when the PATCH fails in the transport,
    without a second attempt), the failure is the 502 error.  A failure
    of the ticket call is raised as the request wrapper maps it, and a
    ticket without a usable upload link is a 500 error, after the
    ticket call alone. *)
Theorem C5_upload_fallback_and_failures
    (self : VimeoClient) (bytes : string) (size : Z)
    (p : Provider) (sent : list Request) :
  let ticket := request_of self POST "/me/videos" [] (Some (ticket_body size)) in
  let run := vimeo_client.upload_video L self bytes size p sent in
  (forall r0 fields upload target,
     p sent ticket = Responded r0 -> httpx.is_success r0 = true ->
     httpx.json r0 = Some (JObj fields) ->
     get_default fields "upload" (JObj []) = JObj upload ->
     get_default upload "upload_link" JNull = JStr target ->
     target <> "" ->
     let patch := patch_request target bytes in
     let put := put_request target bytes in
     (forall r1,
        p (sent ++ [ticket])%list patch = Responded r1 ->
        httpx.is_success r1 = false ->
        snd run = (sent ++ [ticket; patch; put])%list /\
        method put <> method patch /\
        (forall e, p (sent ++ [ticket; patch])%list put = Failed e ->
                   fst run = Raise upload_failed) /\
        (forall r2, p (sent ++ [ticket; patch])%list put = Responded r2 ->
                    httpx.is_success r2 = false ->
                    fst run = Raise upload_failed)) /\
     (forall e, p (sent ++ [ticket])%list patch = Failed e ->
        run = (Raise upload_failed, (sent ++ [ticket; patch])%list)) /\
     (forall e tr,
        vimeo_client.upload_transfer (JStr target) bytes p (sent ++ [ticket])%list
          = (Raise e, tr) ->
        run = (Raise upload_failed, tr))) /\
  (forall e tr,
     vimeo_client._request self POST "/me/videos" [] (Some (ticket_body size)) p sent
       = (Raise e, tr) ->
     run = (Raise e, tr)) /\
  (forall r0 fields upload,
     p sent ticket = Responded r0 -> httpx.is_success r0 = true ->
     httpx.json r0 = Some (JObj fields) ->
     get_default fields "upload" (JObj []) = JObj upload ->
     truthy (get_default upload "upload_link" JNull) = false ->
     run = (Raise (HTTPException 500 "Failed to retrieve upload link from Vimeo"),
            (sent ++ [ticket])%list)).
Proof.
  intros ticket run. subst run. split; [|split].
  - intros r0 fields upload target Hp Hok Hjson Hupload Htarget Hne patch put.
    rewrite (upload_video_run_with_ticket L self bytes size p sent r0 fields
               upload target Hp Hok Hjson Hupload Htarget Hne).
    cbv zeta. fold ticket. split; [|split].
    + intros r1 H1 Hbad. rewrite upload_transfer_run. cbv zeta.
      fold patch put. rewrite H1, (non_success_needs_fallback r1 Hbad).
      replace (sent ++ [ticket; patch])%list
        with ((sent ++ [ticket]) ++ [patch])%list
        by (now rewrite <- app_assoc).
      replace (sent ++ [ticket; patch; put])%list
        with (((sent ++ [ticket]) ++ [patch]) ++ [put])%list
        by (now rewrite <- !app_assoc).
      split; [|split; [discriminate|split]].
      * destruct (p _ put) as [r2|e]; [destruct (httpx.is_success r2)|];
          reflexivity.
      * now intros e ->.
      * now intros r2 -> ->.
    + intros e H1. rewrite upload_transfer_run. cbv zeta. fold patch.
      rewrite H1. cbn [fst snd]. now rewrite <- app_assoc.
    + intros e tr ->. reflexivity.
  - intros e tr H. unfold vimeo_client.upload_video. fold (ticket_body size).
    unfold bind at 1. now rewrite H.
  - intros r0 fields upload Hp Hok Hjson Hupload Hfalsy.
    unfold vimeo_client.upload_video. fold (ticket_body size).
    unfold bind at 1. rewrite request_run. fold ticket.
    rewrite Hp, Hok, Hjson.
    unfold bind, lift. simpl dict_get. cbv iota beta.
    rewrite Hupload. simpl dict_get. cbv iota beta.
    now rewrite Hfalsy.
Qed.

End UploadClaims.

Lemma C5_patch_500_put_500 :
  vimeo_client.upload_video sample_libs sample_client "bytes" 5
    (upload_provider sample_ticket 500 500) []
  = (Raise upload_failed,
     [request_of sample_client POST "/me/videos" [] (Some (ticket_body 5));
      patch_request "https://upload.example.com/9" "bytes";
      put_request "https://upload.example.com/9" "bytes"]).
Proof.
  destruct (proj1 (proj1 (C5_upload_fallback_and_failures sample_libs
                            sample_client "bytes" 5
                            (upload_provider sample_ticket 500 500) [])
                     _ _ _ "https://upload.example.com/9"
                     eq_refl eq_refl eq_refl eq_refl eq_refl
                     ltac:(discriminate))
              _ eq_refl eq_refl) as (Hsent & _ & _ & Hfail).
  specialize (Hfail _ eq_refl eq_refl).
  rewrite (surjective_pairing (vimeo_client.upload_video _ _ _ _ _ _)).
  now rewrite Hsent, Hfail.
Defined.

Example upload_patch_204 :
  vimeo_client.upload_video sample_libs sample_client "bytes" 5
    (upload_provider sample_ticket 204 500) []
  = (Ok {| video_id := "9"; upload_link := "https://vimeo.com/9";
           status := "uploaded_pending_transcode" |},
     [request_of sample_client POST "/me/videos" [] (Some (ticket_body 5));
      patch_request "https://upload.example.com/9" "bytes"]).
Proof. reflexivity. Qed.

Example upload_patch_405_put_200 :
  fst (vimeo_client.upload_video sample_libs sample_client "bytes" 5
         (upload_provider sample_ticket 405 200) [])
  = Ok {| video_id := "9"; upload_link := "https://vimeo.com/9";
          status := "uploaded_pending_transcode" |}.
Proof. reflexivity. Qed.

(** C5 as stated fails: an upload that stops at the ticket is not a
    502.  A ticket without an upload link is answered 500 after the
    ticket call alone, and a ticket call the provider refuses with 401
    is answered 401. *)
Lemma C5_ticket_failures_are_not_502 :
  fastapi.serve (videos.upload_video sample_libs sample_settings (Some "bytes"))
    (upload_provider (JObj [("uri", JStr "/videos/9")]) 204 204)
  = (fastapi.json_response 500
       (JsonDetail "Failed to retrieve upload link from Vimeo"),
     [request_of sample_client POST "/me/videos" [] (Some (ticket_body 5))]) /\
  500 <> 502 /\
  fastapi.serve (videos.upload_video sample_libs sample_settings (Some "bytes"))
    (failing_provider 401 "")
  = (fastapi.json_response 401 (JsonDetail "Invalid Vimeo Token"),
     [request_of sample_client POST "/me/videos" [] (Some (ticket_body 5))]).
Proof.
  repeat split. discriminate.
Qed.

(** * Further properties of the code *)

(** ** [split] and the id *)

Lemma join_cons_char (sep c : ascii) (piece : string) (pieces : list string) :
  join sep (String c piece :: pieces) = String c (join sep (piece :: pieces)).
Proof. destruct pieces; reflexivity. Qed.

(** X1.  [s.split(sep)] loses nothing: joining the pieces with the
    separator gives [s] back, no piece holds the separator, and there is
    one more piece than there are separators in [s]. *)
Theorem split_join_round_trip (sep : ascii) (s : string) :
  join sep (split sep s) = s /\
  Forall (fun piece => occurs sep piece = false) (split sep s) /\
  List.length (split sep s) = S (count sep s).
Proof.
  induction s as [|c rest (Hjoin & Hfree & Hlen)]; simpl.
  - repeat split. constructor; [reflexivity|constructor].
  - destruct (Ascii.eqb c sep) eqn:Hc.
    + apply Ascii.eqb_eq in Hc. subst c.
      destruct (split sep rest) as [|q ps] eqn:Hs;
        [now destruct (split_not_nil sep rest)|].
      split; [|split].
      * change (join sep (EmptyString :: q :: ps))
          with (String sep (join sep (q :: ps))).
        now rewrite Hjoin.
      * constructor; [reflexivity|exact Hfree].
      * simpl in *. now rewrite Hlen.
    + destruct (split sep rest) as [|q ps] eqn:Hs;
        [now destruct (split_not_nil sep rest)|].
      split; [|split].
      * rewrite join_cons_char. now rewrite Hjoin.
      * inversion Hfree as [|? ? Hq Hps]; subst.
        constructor; [|exact Hps]. simpl. now rewrite Hc, Hq.
      * exact Hlen.
Qed.

(** X2.  A [uri] that ends in a slash-free [t] after a slash has the
    id [t], whatever comes before the slash; so a [uri] with a trailing
    slash has the empty id. *)
Theorem id_of_uri_ending_in (fields : list (string * json)) (prefix t : string) :
  lookup "uri" fields = Some (JStr (prefix ++ String "/" t)) ->
  occurs "/" t = false ->
  vimeo_client.extract_video_id (JObj fields) = Ok t.
Proof.
  intros Huri Hfree.
  rewrite (extract_video_id_str fields (prefix ++ String "/" t))
    by auto using get_default_present.
  destruct (last_piece_spec (prefix ++ String "/" t))
    as (t' & Hlast & Hfree' & Hin & _).
  rewrite Hlast. f_equal.
  apply (after_last_slash_unique (prefix ++ String "/" t)).
  - apply Hin. rewrite occurs_app. simpl. now rewrite orb_true_r.
  - now exists prefix.
Qed.

Lemma id_of_uri_with_trailing_slash :
  vimeo_client.extract_video_id (JObj [("uri", JStr "/videos/123/")]) = Ok "".
Proof.
  exact (id_of_uri_ending_in [("uri", JStr "/videos/123/")] "/videos/123" ""
           eq_refl eq_refl).
Defined.

(** ** What normalisation raises and what it refuses *)

Lemma raises_only_ok e0 {A} (a : A) : raises_only e0 (Ok a).
Proof. intros e H. discriminate H. Qed.

Lemma raises_only_raise e0 {A} : raises_only e0 (@Raise A e0).
Proof. intros e H. now injection H. Qed.

Lemma raises_only_rbind e0 {A B} (r : result A) (k : A -> result B) :
  raises_only e0 r -> (forall a, raises_only e0 (k a)) ->
  raises_only e0 (rbind r k).
Proof.
  intros Hr Hk e. destruct r as [a|e']; simpl.
  - apply Hk.
  - intros [= <-]. now apply Hr.
Qed.

Lemma raises_only_of_option {A} (o : option A) :
  raises_only ValidationError (of_option o).
Proof. destruct o; [apply raises_only_ok | apply raises_only_raise]. Qed.

Create HintDb raises discriminated.
#[local] Hint Resolve raises_only_ok raises_only_raise raises_only_of_option
  : raises.

Section NormalisationErrors.
Context (L : Libs).

Lemma validate_str_raises v : raises_only ValidationError (validate_str v).
Proof. destruct v; simpl; auto with raises. Qed.

Lemma validate_optional_str_raises v :
  raises_only ValidationError (validate_optional_str v).
Proof. destruct v; simpl; auto with raises. Qed.

Lemma validate_int_raises v : raises_only ValidationError (validate_int L v).
Proof. destruct v; simpl; auto with raises. Qed.

Lemma validate_bool_raises v : raises_only ValidationError (validate_bool L v).
Proof. destruct v; simpl; auto with raises. Qed.

Lemma validate_HttpUrl_raises v :
  raises_only ValidationError (validate_HttpUrl L v).
Proof. destruct v; simpl; auto with raises. Qed.

Lemma validate_dict_raises v : raises_only ValidationError (validate_dict v).
Proof. destruct v; simpl; auto with raises. Qed.

Lemma validate_list_raises {A} (f : json -> result A) (items : list json) :
  (forall v, raises_only ValidationError (f v)) ->
  raises_only ValidationError (validate_list f items).
Proof.
  intros Hf. induction items as [|v rest IH]; simpl; [auto with raises|].
  apply raises_only_rbind; [apply Hf|]. intros a.
  apply raises_only_rbind; [exact IH|]. intros l. auto with raises.
Qed.

#[local] Hint Resolve validate_str_raises validate_optional_str_raises
  validate_int_raises validate_bool_raises validate_HttpUrl_raises
  validate_dict_raises : raises.

Ltac raises_chain :=
  repeat first [ solve [auto with raises]
               | apply raises_only_rbind; [|intros ?] ].

Lemma validate_Picture_raises v :
  raises_only ValidationError (validate_Picture L v).
Proof.
  destruct v; simpl; auto with raises.
  unfold required. raises_chain.
  match goal with x : json |- _ => destruct x end; auto with raises.
  apply validate_list_raises. auto with raises.
Qed.

Lemma validate_optional_Picture_raises v :
  raises_only ValidationError (validate_optional_Picture L v).
Proof.
  destruct v; unfold validate_optional_Picture; auto with raises;
    (apply raises_only_rbind; [apply validate_Picture_raises|];
     intros p; auto with raises).
Qed.

#[local] Hint Resolve validate_optional_Picture_raises : raises.

Lemma Video_init_raises (a : VideoArgs) :
  raises_only ValidationError (Video_init L a).
Proof. unfold Video_init. raises_chain. Qed.

Lemma video_args_raises (d : json) :
  raises_only AttributeError (vimeo_client.video_args d).
Proof.
  intros e. destruct d as [| | | | |fields]; try (cbv; congruence).
  unfold vimeo_client.video_args.
  destruct (vimeo_client.extract_video_id (JObj fields)) as [t|e1] eqn:Hid.
  - destruct (vimeo_client.extract_embed_html (JObj fields)) as [h|e2] eqn:Hh.
    + discriminate.
    + simpl. intros [= <-]. now apply extract_embed_html_raises in Hh.
  - simpl. intros [= <-]. now apply extract_video_id_raises in Hid.
Qed.

(** X3.  Normalising a provider value fails in two ways only: with an
    attribute error, always so when the value is not an object, or with
    a validation error of the schema.  It never raises an
    [HTTPException], so a malformed provider record is not reported as
    an upstream error. *)
Theorem normalize_failures (d : json) :
  (forall e, vimeo_client._normalize_video L d = Raise e ->
             e = AttributeError \/ e = ValidationError) /\
  ((forall fields, d <> JObj fields) ->
   vimeo_client._normalize_video L d = Raise AttributeError).
Proof.
  split.
  - intros e. unfold vimeo_client._normalize_video.
    destruct (vimeo_client.video_args d) as [a|e'] eqn:Ha; simpl.
    + intros H. right. now apply Video_init_raises in H.
    + intros [= <-]. left. now apply video_args_raises in Ha.
  - intros Hd. destruct d; try reflexivity. now destruct (Hd fields).
Qed.

(** X4.  The empty default of [link] is no URL: a record without a
    [link] never normalises, as long as the library rejects the empty
    string as a URL. *)
Theorem record_without_link_is_refused (fields : list (string * json)) :
  http_url L "" = None ->
  lookup "link" fields = None ->
  exists e, vimeo_client._normalize_video L (JObj fields) = Raise e.
Proof.
  intros Hempty Hlink.
  destruct (vimeo_client._normalize_video L (JObj fields)) as [v|e] eqn:H;
    [|now exists e].
  apply normalize_inv in H as (_ & _ & _ & _ & Hl & _).
  rewrite (get_default_absent _ _ _ Hlink) in Hl. simpl in Hl.
  rewrite Hempty in Hl. discriminate Hl.
Qed.

(** X5.  The placeholder name stands in for a missing key only: a
    record whose [name] is there and is not a string (null, say) never
    normalises. *)
Theorem record_with_non_string_name_is_refused
    (fields : list (string * json)) (x : json) :
  lookup "name" fields = Some x -> (forall s, x <> JStr s) ->
  exists e, vimeo_client._normalize_video L (JObj fields) = Raise e.
Proof.
  intros Hname Hx.
  destruct (vimeo_client._normalize_video L (JObj fields)) as [v|e] eqn:H;
    [|now exists e].
  apply normalize_inv in H as (_ & Hn & _).
  rewrite (get_default_present _ _ _ _ Hname) in Hn.
  destruct x; try discriminate Hn. now destruct (Hx s).
Qed.

End NormalisationErrors.

Lemma normalize_of_a_list_raises :
  vimeo_client._normalize_video sample_libs (JArr []) = Raise AttributeError.
Proof.
  refine (proj2 (normalize_failures sample_libs (JArr [])) _).
  intros fields. discriminate.
Defined.

Lemma sample_record_without_link_is_refused :
  exists e,
    vimeo_client._normalize_video sample_libs
      (JObj [("uri", JStr "/videos/123"); ("name", JStr "Test Video")])
    = Raise e.
Proof.
  exact (record_without_link_is_refused sample_libs
           [("uri", JStr "/videos/123"); ("name", JStr "Test Video")]
           eq_refl eq_refl).
Defined.

Lemma sample_record_with_null_name_is_refused :
  exists e,
    vimeo_client._normalize_video sample_libs
      (JObj [("uri", JStr "/videos/123"); ("name", JNull);
             ("link", JStr "https://example.com/v/123")])
    = Raise e.
Proof.
  refine (record_with_non_string_name_is_refused sample_libs
            [("uri", JStr "/videos/123"); ("name", JNull);
             ("link", JStr "https://example.com/v/123")] JNull eq_refl _).
  intros s. discriminate.
Defined.

(** ** The request wrapper and the operations built on it *)

Lemma rbind_raise_inv {A B} (r : result A) (k : A -> result B) (e : exn) :
  rbind r k = Raise e -> r = Raise e \/ exists a, r = Ok a /\ k a = Raise e.
Proof. destruct r as [a|e']; simpl; [eauto | intros [= ->]; auto]. Qed.

(** X6.  Whatever the provider does, [_request] makes one call, never
    none and never a second; it returns a value exactly when the
    provider answers with a success status and a JSON body, and that
    value is the decoded body.  A success status with a body that is
    not JSON raises the decoding error, which no handler catches. *)
Theorem request_calls_once_and_returns_the_body
    (self : VimeoClient) (m : Method) (endpoint : string)
    (query : list (string * json)) (body : option json)
    (p : Provider) (sent : list Request) :
  let req := request_of self m endpoint query body in
  let run := vimeo_client._request self m endpoint query body p sent in
  snd run = (sent ++ [req])%list /\
  (forall v, fst run = Ok v <->
             exists r, p sent req = Responded r /\
                       httpx.is_success r = true /\ httpx.json r = Some v) /\
  (forall r, p sent req = Responded r -> httpx.is_success r = true ->
             httpx.json r = None -> fst run = Raise JSONDecodeError).
Proof.
  intros req run. subst run. rewrite request_run. fold req. cbn [fst snd].
  split; [reflexivity|]. split.
  - intros v. split.
    + destruct (p sent req) as [r|e]; [|discriminate].
      destruct (httpx.is_success r) eqn:Hok.
      * destruct (httpx.json r) as [w|] eqn:Hj; [|discriminate].
        intros [= ->]. now exists r.
      * repeat match goal with
               | |- context [if ?b then _ else _] => destruct b
               end; discriminate.
    + intros (r & -> & -> & ->). reflexivity.
  - now intros r -> -> ->.
Qed.

Lemma request_decoding_error_sample :
  fst (vimeo_client._request sample_client GET "/videos/1" [] None
         (failing_provider 200 "<html>") [])
  = Raise JSONDecodeError.
Proof.
  exact (proj2 (proj2 (request_calls_once_and_returns_the_body sample_client
                         GET "/videos/1" [] None
                         (failing_provider 200 "<html>") []))
           _ eq_refl eq_refl eq_refl).
Defined.

Section Operations.
Context (L : Libs).

(** X7.  [get_video] asks for [/videos/<id>] once and returns exactly
    the normalisation of the body the provider answers with. *)
Theorem get_video_is_the_normalised_body
    (self : VimeoClient) (video_id : string) (p : Provider)
    (sent : list Request) :
  let req := request_of self GET ("/videos/" ++ video_id) [] None in
  let run := vimeo_client.get_video L self video_id p sent in
  snd run = (sent ++ [req])%list /\
  (forall v, fst run = Ok v <->
             exists r d, p sent req = Responded r /\
                         httpx.is_success r = true /\ httpx.json r = Some d /\
                         vimeo_client._normalize_video L d = Ok v).
Proof.
  intros req run. subst run. rewrite get_video_run. cbv zeta.
  rewrite request_run. fold req. cbn [fst snd]. split; [reflexivity|].
  intros v. split.
  - destruct (p sent req) as [r|e]; [|discriminate].
    destruct (httpx.is_success r) eqn:Hok.
    + destruct (httpx.json r) as [d|] eqn:Hj; [|discriminate].
      simpl. intros H. now exists r, d.
    + repeat match goal with
             | |- context [if ?b then _ else _] => destruct b
             end; discriminate.
  - intros (r & d & -> & -> & -> & H). exact H.
Qed.


(** A body that cannot be made into a [VideoList] fails on the client's
    side: with an attribute, type or validation error. *)
Lemma comprehension_raises (items : list json) (e : exn) :
  comprehension (vimeo_client._normalize_video L) items = Raise e ->
  e = AttributeError \/ e = ValidationError.
Proof.
  induction items as [|x rest IH]; simpl; [discriminate|].
  intros H. apply rbind_raise_inv in H as [H | (v & _ & H)].
  - now apply (proj1 (normalize_failures L x)).
  - apply rbind_raise_inv in H as [H | (l & _ & H)]; [auto | discriminate].
Qed.

Lemma video_list_of_raises (body : json) (e : exn) :
  vimeo_client.video_list_of L body = Raise e ->
  e = AttributeError \/ e = TypeError \/ e = ValidationError.
Proof.
  destruct body as [| | | | |fields]; try (cbv; intros [= <-]; auto).
  unfold vimeo_client.video_list_of. simpl. intros H.
  apply rbind_raise_inv in H as [H | (items & _ & H)].
  { destruct (get_default fields "data" (JArr [])); simpl in H;
      try discriminate H; injection H as <-; auto. }
  apply rbind_raise_inv in H as [H | (videos & _ & H)].
  { apply comprehension_raises in H. tauto. }
  unfold vimeo_client.VideoList_init in H.
  apply rbind_raise_inv in H as [H | (a & _ & H)];
    [apply validate_int_raises in H; auto|].
  apply rbind_raise_inv in H as [H | (b & _ & H)];
    [apply validate_int_raises in H; auto|].
  apply rbind_raise_inv in H as [H | (c & _ & H)];
    [apply validate_int_raises in H; auto | discriminate].
Qed.

End Operations.

Lemma get_video_sample_is_normalised :
  fst (vimeo_client.get_video sample_libs sample_client "123"
         (provider_returning (JObj sample_record)) [])
  = Ok sample_video.
Proof.
  apply (proj2 (get_video_is_the_normalised_body sample_libs sample_client
                  "123" (provider_returning (JObj sample_record)) [])).
  eexists. exists (JObj sample_record). repeat split.
Defined.


(** ** The handlers: validation, call counts and errors *)

Lemma Query_int_raises default lo hi v (e : exn) :
  fastapi.Query_int default lo hi v = Raise e -> e = RequestValidationError.
Proof.
  unfold fastapi.Query_int, fastapi.invalid.
  destruct (_ && _); [discriminate | now intros [= <-]].
Qed.

Lemma Query_literal_raises allowed default v (e : exn) :
  fastapi.Query_literal allowed default v = Raise e -> e = RequestValidationError.
Proof.
  unfold fastapi.Query_literal, fastapi.invalid.
  destruct v as [s|]; [|discriminate].
  destruct (existsb _ _); [discriminate | now intros [= <-]].
Qed.

Lemma Query_required_str_raises n v (e : exn) :
  fastapi.Query_required_str n v = Raise e -> e = RequestValidationError.
Proof.
  unfold fastapi.Query_required_str, fastapi.invalid.
  destruct v as [s|]; [|now intros [= <-]].
  destruct (_ <=? _)%nat; [discriminate | now intros [= <-]].
Qed.

Section HandlerValidation.
Context (L : Libs) (settings : Settings).

Local Abbreviation client := (VimeoClient_init settings).

(** X9.  Paging out of bounds is refused before anything is sent: a
    [page] below 1, or a [per_page] below 1 or above 100, makes both the
    list and the search handler answer 422 with no call to the
    provider, whatever the other parameters are. *)
Theorem paging_out_of_bounds_is_refused
    (req_page req_per_page : option Z) (sort q : option string) (p : Provider) :
  (exists n, req_page = Some n /\ n < 1) \/
  (exists n, req_per_page = Some n /\ (n < 1 \/ 100 < n)) ->
  fastapi.serve (videos.list_videos L settings req_page req_per_page sort) p
    = (unprocessable, []) /\
  fastapi.serve (videos.search_videos L settings q req_page req_per_page) p
    = (unprocessable, []).
Proof.
  intros Hbad.
  assert (Hq : fastapi.Query_int 1 1 None req_page = Raise RequestValidationError
               \/ fastapi.Query_int 25 1 (Some 100) req_per_page
                  = Raise RequestValidationError).
  { destruct Hbad as [(n & -> & Hn) | (n & -> & Hn)]; [left|right];
      unfold fastapi.Query_int, fastapi.invalid.
    - replace (1 <=? n) with false by lia. reflexivity.
    - destruct (1 <=? n) eqn:Hlo; [|reflexivity].
      replace (n <=? 100) with false by lia. reflexivity. }
  unfold fastapi.serve, videos.list_videos, videos.search_videos, bind, lift.
  split.
  - destruct (fastapi.Query_int 1 1 None req_page) as [pg|e] eqn:Hpage.
    + destruct Hq as [Hq|Hq]; [discriminate Hq|]. now rewrite Hq.
    + apply Query_int_raises in Hpage. now subst e.
  - destruct (fastapi.Query_required_str 1 q) as [s|e] eqn:Hs.
    + destruct (fastapi.Query_int 1 1 None req_page) as [pg|e] eqn:Hpage.
      * destruct Hq as [Hq|Hq]; [discriminate Hq|]. now rewrite Hq.
      * apply Query_int_raises in Hpage. now subst e.
    + apply Query_required_str_raises in Hs. now subst e.
Qed.

Lemma sort_literal_truthy (s : string) :
  In s sort_literals -> truthy (JStr s) = true.
Proof.
  intros [<-|[<-|[<-|[<-|[]]]]]; reflexivity.
Qed.

Lemma existsb_eqb_In (s : string) (l : list string) :
  existsb (String.eqb s) l = true <-> In s l.
Proof.
  rewrite existsb_exists. split.
  - intros (x & Hx & Heq). apply String.eqb_eq in Heq. now subst.
  - intros H. exists s. split; [exact H | apply String.eqb_refl].
Qed.

(** X10.  The sort key is forwarded or refused, never altered: with
    valid paging, one of the four literals goes to the provider as the
    [sort] parameter after [page] and [per_page], and any other value is
    answered 422 with no call. *)
Theorem sort_is_forwarded_or_refused
    (req_page req_per_page : Z) (s : string) (p : Provider) :
  1 <= req_page -> 1 <= req_per_page <= 100 ->
  (In s sort_literals ->
   snd (fastapi.serve
          (videos.list_videos L settings (Some req_page) (Some req_per_page)
             (Some s)) p)
   = [request_of client GET "/me/videos"
        (list_params req_page req_per_page ++ [("sort", JStr s)])%list None]) /\
  (~ In s sort_literals ->
   fastapi.serve
     (videos.list_videos L settings (Some req_page) (Some req_per_page) (Some s)) p
   = (unprocessable, [])).
Proof.
  intros Hpage Hper.
  unfold fastapi.serve, videos.list_videos, bind, lift, fastapi.Query_int,
    videos.get_vimeo_client.
  replace (1 <=? req_page) with true by lia.
  replace (1 <=? req_per_page) with true by lia.
  replace (req_per_page <=? 100) with true by lia. cbn [andb].
  unfold fastapi.Query_literal. fold sort_literals.
  split; intros Hs.
  - rewrite (proj2 (existsb_eqb_In s sort_literals) Hs).
    pose proof (get_videos_run L client req_page req_per_page (Some s) p [])
      as Hrun.
    cbv zeta in Hrun. rewrite request_run in Hrun. cbn [fst snd] in Hrun.
    unfold vimeo_client.sort_param in Hrun.
    rewrite (sort_literal_truthy s Hs) in Hrun.
    destruct (vimeo_client.get_videos L client req_page req_per_page (Some s) p [])
      as [[vl|e] tr]; injection Hrun as _ ->; reflexivity.
  - destruct (existsb (String.eqb s) sort_literals) eqn:Hex.
    + apply existsb_eqb_In in Hex. contradiction.
    + reflexivity.
Qed.

Lemma lift_bind_trace {A B} (r : result A) (k : A -> io B) (p : Provider)
    (sent : list Request) :
  snd (bind (lift r) k p sent)
  = match r with Ok a => snd (k a p sent) | Raise _ => sent end.
Proof. unfold bind, lift. destruct r; reflexivity. Qed.

Lemma bind_ret_trace {A B} (m : io A) (f : A -> B) (p : Provider)
    (sent : list Request) :
  snd (bind m (fun a => ret (f a)) p sent) = snd (m p sent).
Proof. unfold bind, ret. destruct (m p sent) as [[a|e] tr]; reflexivity. Qed.

Lemma get_videos_trace self pg pp sort p sent :
  exists req, snd (vimeo_client.get_videos L self pg pp sort p sent)
              = (sent ++ [req])%list.
Proof.
  rewrite get_videos_run. cbv zeta. rewrite request_run. eexists. reflexivity.
Qed.

Lemma search_videos_trace self q pg pp p sent :
  exists req, snd (vimeo_client.search_videos L self q pg pp p sent)
              = (sent ++ [req])%list.
Proof.
  rewrite search_videos_run. cbv zeta. rewrite request_run. eexists.
  reflexivity.
Qed.

Lemma get_video_trace self video_id p sent :
  exists req, snd (vimeo_client.get_video L self video_id p sent)
              = (sent ++ [req])%list.
Proof.
  rewrite get_video_run. cbv zeta. rewrite request_run. eexists. reflexivity.
Qed.

Lemma serve_trace (h : io Returned) (p : Provider) :
  snd (fastapi.serve h p) = snd (h p []).
Proof. unfold fastapi.serve. destruct (h p []); reflexivity. Qed.

(** X11.  The list, search and play handlers never make more than one
    call to the provider for a request, whatever the parameters and
    whatever the provider answers. *)
Theorem read_handlers_call_at_most_once
    (req_page req_per_page : option Z) (sort q mode : option string)
    (video_id : string) (p : Provider) :
  (List.length (snd (fastapi.serve
     (videos.list_videos L settings req_page req_per_page sort) p)) <= 1)%nat /\
  (List.length (snd (fastapi.serve
     (videos.search_videos L settings q req_page req_per_page) p)) <= 1)%nat /\
  (List.length (snd (fastapi.serve
     (videos.play_video L settings video_id mode) p)) <= 1)%nat.
Proof.
  rewrite !serve_trace.
  unfold videos.list_videos, videos.search_videos, videos.play_video.
  repeat split.
  - repeat (rewrite lift_bind_trace;
            match goal with |- context [match ?r with _ => _ end] =>
              destruct r; [|simpl; lia] end).
    rewrite bind_ret_trace.
    destruct (get_videos_trace (videos.get_vimeo_client settings) a a0 a1 p [])
      as (req & ->). simpl. lia.
  - repeat (rewrite lift_bind_trace;
            match goal with |- context [match ?r with _ => _ end] =>
              destruct r; [|simpl; lia] end).
    rewrite bind_ret_trace.
    destruct (search_videos_trace (videos.get_vimeo_client settings) a a0 a1 p [])
      as (req & ->). simpl. lia.
  - rewrite lift_bind_trace.
    destruct (fastapi.Query_literal _ _ mode) as [m|]; [|simpl; lia].
    destruct (get_video_trace (videos.get_vimeo_client settings) video_id p [])
      as (req & Htr).
    unfold bind.
    destruct (vimeo_client.get_video L (videos.get_vimeo_client settings)
                video_id p []) as [[v|e] tr]; simpl in Htr; subst tr.
    + destruct (match m with Some m0 => (m0 =? "redirect")%string | None => false end);
        simpl; lia.
    + simpl. lia.
Qed.

End HandlerValidation.

Lemma page_zero_is_refused :
  fastapi.serve (videos.list_videos sample_libs sample_settings (Some 0) None None)
    (provider_returning sample_page)
  = (unprocessable, []).
Proof.
  refine (proj1 (paging_out_of_bounds_is_refused sample_libs sample_settings
                   (Some 0) None None None (provider_returning sample_page) _)).
  left. exists 0. split; [reflexivity | lia].
Defined.

Lemma sort_by_date_is_forwarded :
  snd (fastapi.serve
         (videos.list_videos sample_libs sample_settings (Some 1) (Some 25)
            (Some "date"))
         (provider_returning sample_page))
  = [request_of sample_client GET "/me/videos"
       [("page", JInt 1); ("per_page", JInt 25); ("sort", JStr "date")] None].
Proof.
  refine (proj1 (sort_is_forwarded_or_refused sample_libs sample_settings
                   1 25 "date" (provider_returning sample_page) _ _) _);
    [lia | lia | left; reflexivity].
Defined.

Section HandlerErrors.
Context (L : Libs) (settings : Settings).

Local Abbreviation client := (VimeoClient_init settings).

Lemma mode_literal (mode : option string) :
  mode = None \/ mode = Some "json" \/ mode = Some "redirect" ->
  exists m, fastapi.Query_literal ["json"; "redirect"] (Some "json") mode = Ok m.
Proof. intros [-> | [-> | ->]]; eexists; reflexivity. Qed.



(** X14.  A play request with a mode other than [json] and [redirect],
    and an upload request without a file, are answered 422 with no call
    to the provider. *)
Theorem bad_mode_and_missing_file_are_refused
    (video_id m : string) (p : Provider) :
  (m <> "json" -> m <> "redirect" ->
   fastapi.serve (videos.play_video L settings video_id (Some m)) p
   = (unprocessable, [])) /\
  fastapi.serve (videos.upload_video L settings None) p = (unprocessable, []).
Proof.
  split; [|reflexivity].
  intros Hj Hr.
  unfold fastapi.serve, videos.play_video, bind, lift, fastapi.Query_literal.
  simpl existsb.
  apply String.eqb_neq in Hj, Hr. now rewrite Hj, Hr.
Qed.

End HandlerErrors.



Lemma play_with_mode_embed_is_refused :
  fastapi.serve (videos.play_video sample_libs sample_settings "123" (Some "embed"))
    (provider_returning (JObj sample_record))
  = (unprocessable, []).
Proof.
  refine (proj1 (bad_mode_and_missing_file_are_refused sample_libs
                   sample_settings "123" "embed"
                   (provider_returning (JObj sample_record))) _ _);
    discriminate.
Defined.

(** ** Upload: the success path and the calls it makes *)

Section UploadPaths.
Context (L : Libs).

Lemma accepted_status_no_fallback (r : httpx.Response) :
  In (httpx.status_code r) [200; 201; 204] ->
  vimeo_client.needs_fallback r = false /\ httpx.is_success r = true.
Proof.
  unfold vimeo_client.needs_fallback, httpx.is_success.
  intros [<-|[<-|[<-|[]]]]; split; reflexivity.
Qed.

Lemma other_status_needs_fallback (r : httpx.Response) :
  ~ In (httpx.status_code r) [200; 201; 204] ->
  vimeo_client.needs_fallback r = true.
Proof.
  unfold vimeo_client.needs_fallback. simpl. intros H.
  destruct (httpx.status_code r =? 200) eqn:E200; [lia|].
  destruct (httpx.status_code r =? 201) eqn:E201; [lia|].
  destruct (httpx.status_code r =? 204) eqn:E204; [lia|].
  reflexivity.
Qed.

(** X15.  An upload whose PATCH is answered 200, 201 or 204 is done
    after two calls, the ticket and the PATCH, with no PUT: the result
    carries the last piece of the ticket's [uri] as the video id, the
    ticket's [link], and the status ["uploaded_pending_transcode"]. *)
Theorem upload_accepted_by_patch
    (self : VimeoClient) (bytes : string) (size : Z)
    (p : Provider) (sent : list Request)
    (r0 r1 : httpx.Response) (fields upload : list (string * json))
    (target uri lnk u : string) :
  let ticket := request_of self POST "/me/videos" [] (Some (ticket_body size)) in
  let patch := patch_request target bytes in
  p sent ticket = Responded r0 -> httpx.is_success r0 = true ->
  httpx.json r0 = Some (JObj fields) ->
  get_default fields "upload" (JObj []) = JObj upload ->
  get_default upload "upload_link" JNull = JStr target -> target <> "" ->
  p (sent ++ [ticket])%list patch = Responded r1 ->
  In (httpx.status_code r1) [200; 201; 204] ->
  lookup "uri" fields = Some (JStr uri) ->
  lookup "link" fields = Some (JStr lnk) -> http_url L lnk = Some u ->
  exists t,
    index_last (split "/" uri) = Ok t /\
    vimeo_client.upload_video L self bytes size p sent
    = (Ok {| video_id := t; upload_link := u;
             status := "uploaded_pending_transcode" |},
       (sent ++ [ticket; patch])%list).
Proof.
  intros ticket patch Hp Hok Hjson Hupload Htarget Hne H1 Hacc Huri Hlink Hurl.
  destruct (index_last_total (split "/" uri) (split_not_nil _ _)) as (t & Ht).
  exists t. split; [exact Ht|].
  rewrite (upload_video_run_with_ticket L self bytes size p sent r0 fields
             upload target Hp Hok Hjson Hupload Htarget Hne).
  cbv zeta. fold ticket. rewrite upload_transfer_run. cbv zeta. fold patch.
  destruct (accepted_status_no_fallback r1 Hacc) as (Hno & Hsucc).
  rewrite H1, Hno, Hsucc. cbn [fst snd].
  rewrite (get_default_present _ _ _ _ Huri),
    (get_default_present _ _ _ _ Hlink).
  simpl. rewrite Ht. simpl. unfold vimeo_client.UploadResponse_init. simpl.
  rewrite Hurl. simpl. now rewrite <- app_assoc.
Qed.

(** X16.  Any other answer to the PATCH, a success status such as 202
    included, sends the bytes again with a PUT, and the PUT alone
    decides: when it is answered with a success status the upload is
    done, after three calls. *)
Theorem upload_accepted_by_put
    (self : VimeoClient) (bytes : string) (size : Z)
    (p : Provider) (sent : list Request)
    (r0 r1 r2 : httpx.Response) (fields upload : list (string * json))
    (target uri lnk u : string) :
  let ticket := request_of self POST "/me/videos" [] (Some (ticket_body size)) in
  let patch := patch_request target bytes in
  let put := put_request target bytes in
  p sent ticket = Responded r0 -> httpx.is_success r0 = true ->
  httpx.json r0 = Some (JObj fields) ->
  get_default fields "upload" (JObj []) = JObj upload ->
  get_default upload "upload_link" JNull = JStr target -> target <> "" ->
  p (sent ++ [ticket])%list patch = Responded r1 ->
  ~ In (httpx.status_code r1) [200; 201; 204] ->
  p (sent ++ [ticket; patch])%list put = Responded r2 ->
  httpx.is_success r2 = true ->
  lookup "uri" fields = Some (JStr uri) ->
  lookup "link" fields = Some (JStr lnk) -> http_url L lnk = Some u ->
  exists t,
    index_last (split "/" uri) = Ok t /\
    vimeo_client.upload_video L self bytes size p sent
    = (Ok {| video_id := t; upload_link := u;
             status := "uploaded_pending_transcode" |},
       (sent ++ [ticket; patch; put])%list).
Proof.
  intros ticket patch put Hp Hok Hjson Hupload Htarget Hne H1 Hother H2 Hsucc
    Huri Hlink Hurl.
  destruct (index_last_total (split "/" uri) (split_not_nil _ _)) as (t & Ht).
  exists t. split; [exact Ht|].
  rewrite (upload_video_run_with_ticket L self bytes size p sent r0 fields
             upload target Hp Hok Hjson Hupload Htarget Hne).
  cbv zeta. fold ticket. rewrite upload_transfer_run. cbv zeta.
  fold patch put.
  rewrite H1, (other_status_needs_fallback r1 Hother).
  replace ((sent ++ [ticket]) ++ [patch])%list
    with (sent ++ [ticket; patch])%list by (now rewrite <- app_assoc).
  rewrite H2, Hsucc. cbn [fst snd].
  rewrite (get_default_present _ _ _ _ Huri),
    (get_default_present _ _ _ _ Hlink).
  simpl. rewrite Ht. simpl. unfold vimeo_client.UploadResponse_init. simpl.
  rewrite Hurl. simpl. now rewrite <- app_assoc.
Qed.

(** X17.  The ticket's [uri] is read only after the transfer: when the
    ticket has an upload link but its [uri] is missing or is not a
    string, the bytes are sent and accepted, and then the upload fails
    with an attribute error, which is not the 502 of a failed
    transfer. *)
Theorem upload_without_uri_fails_after_the_transfer
    (self : VimeoClient) (bytes : string) (size : Z)
    (p : Provider) (sent : list Request)
    (r0 r1 : httpx.Response) (fields upload : list (string * json))
    (target : string) :
  let ticket := request_of self POST "/me/videos" [] (Some (ticket_body size)) in
  let patch := patch_request target bytes in
  p sent ticket = Responded r0 -> httpx.is_success r0 = true ->
  httpx.json r0 = Some (JObj fields) ->
  get_default fields "upload" (JObj []) = JObj upload ->
  get_default upload "upload_link" JNull = JStr target -> target <> "" ->
  p (sent ++ [ticket])%list patch = Responded r1 ->
  In (httpx.status_code r1) [200; 201; 204] ->
  (forall s, get_default fields "uri" JNull <> JStr s) ->
  vimeo_client.upload_video L self bytes size p sent
  = (Raise AttributeError, (sent ++ [ticket; patch])%list).
Proof.
  intros ticket patch Hp Hok Hjson Hupload Htarget Hne H1 Hacc Huri.
  rewrite (upload_video_run_with_ticket L self bytes size p sent r0 fields
             upload target Hp Hok Hjson Hupload Htarget Hne).
  cbv zeta. fold ticket. rewrite upload_transfer_run. cbv zeta. fold patch.
  destruct (accepted_status_no_fallback r1 Hacc) as (Hno & Hsucc).
  rewrite H1, Hno, Hsucc. cbn [fst snd]. rewrite <- app_assoc.
  destruct (get_default fields "uri" JNull) as [| | |s| |]; try reflexivity.
  now destruct (Huri s).
Qed.

End UploadPaths.

Lemma upload_sample_accepted_by_patch :
  exists t,
    index_last (split "/" "/videos/9") = Ok t /\
    vimeo_client.upload_video sample_libs sample_client "bytes" 5
      (upload_provider sample_ticket 204 500) []
    = (Ok {| video_id := t; upload_link := "https://vimeo.com/9";
             status := "uploaded_pending_transcode" |},
       [request_of sample_client POST "/me/videos" [] (Some (ticket_body 5));
        patch_request "https://upload.example.com/9" "bytes"]).
Proof.
  refine (upload_accepted_by_patch sample_libs sample_client "bytes" 5
            (upload_provider sample_ticket 204 500) [] _ _ _ _
            "https://upload.example.com/9" "/videos/9" "https://vimeo.com/9"
            "https://vimeo.com/9"
            eq_refl eq_refl eq_refl eq_refl eq_refl _ eq_refl _
            eq_refl eq_refl eq_refl);
    [discriminate | simpl; auto].
Defined.

Lemma upload_sample_patch_202_then_put :
  exists t,
    index_last (split "/" "/videos/9") = Ok t /\
    vimeo_client.upload_video sample_libs sample_client "bytes" 5
      (upload_provider sample_ticket 202 200) []
    = (Ok {| video_id := t; upload_link := "https://vimeo.com/9";
             status := "uploaded_pending_transcode" |},
       [request_of sample_client POST "/me/videos" [] (Some (ticket_body 5));
        patch_request "https://upload.example.com/9" "bytes";
        put_request "https://upload.example.com/9" "bytes"]).
Proof.
  refine (upload_accepted_by_put sample_libs sample_client "bytes" 5
            (upload_provider sample_ticket 202 200) [] _ _ _ _ _
            "https://upload.example.com/9" "/videos/9" "https://vimeo.com/9"
            "https://vimeo.com/9"
            eq_refl eq_refl eq_refl eq_refl eq_refl _ eq_refl _ eq_refl eq_refl
            eq_refl eq_refl eq_refl);
    [discriminate | simpl; lia].
Defined.

Lemma upload_sample_without_uri :
  vimeo_client.upload_video sample_libs sample_client "bytes" 5
    (upload_provider
       (JObj [("upload", JObj [("upload_link", JStr "https://upload.example.com/9")])])
       204 500) []
  = (Raise AttributeError,
     [request_of sample_client POST "/me/videos" [] (Some (ticket_body 5));
      patch_request "https://upload.example.com/9" "bytes"]).
Proof.
  refine (upload_without_uri_fails_after_the_transfer sample_libs sample_client
            "bytes" 5
            (upload_provider
               (JObj [("upload",
                       JObj [("upload_link", JStr "https://upload.example.com/9")])])
               204 500) [] _ _ _ _ "https://upload.example.com/9"
            eq_refl eq_refl eq_refl eq_refl eq_refl _ eq_refl _ _);
    [discriminate | simpl; auto | intros s; discriminate].
Defined.

Section UploadCalls.
Context (L : Libs).

Lemma try_except_all_trace {A} (m : io A) (e' : exn) (p : Provider)
    (sent : list Request) :
  snd (try_except m (fun _ => Some (raise e')) p sent) = snd (m p sent).
Proof.
  unfold try_except, raise. destruct (m p sent) as [[a|e] tr]; reflexivity.
Qed.

Lemma upload_transfer_trace (target : json) (bytes : string) (p : Provider)
    (sent : list Request) :
  exists extra,
    snd (vimeo_client.upload_transfer target bytes p sent) = (sent ++ extra)%list /\
    (extra = [] \/
     exists t, extra = [patch_request t bytes] \/
               extra = [patch_request t bytes; put_request t bytes]).
Proof.
  destruct target as [| | |t| |];
    try (exists []; split; [now rewrite app_nil_r | now left]).
  rewrite upload_transfer_run. cbv zeta.
  destruct (p sent (patch_request t bytes)) as [r1|e].
  - destruct (vimeo_client.needs_fallback r1).
    + exists [patch_request t bytes; put_request t bytes]. split.
      * destruct (p _ (put_request t bytes)); cbn [snd];
          now rewrite <- app_assoc.
      * right. exists t. now right.
    + exists [patch_request t bytes]. split; [reflexivity|].
      right. exists t. now left.
  - exists [patch_request t bytes]. split; [reflexivity|].
    right. exists t. now left.
Qed.

Lemma upload_video_trace (self : VimeoClient) (bytes : string) (size : Z)
    (p : Provider) (sent : list Request) :
  exists extra,
    snd (vimeo_client.upload_video L self bytes size p sent)
    = (sent ++ request_of self POST "/me/videos" [] (Some (ticket_body size))
              :: extra)%list /\
    (extra = [] \/
     exists t, extra = [patch_request t bytes] \/
               extra = [patch_request t bytes; put_request t bytes]).
Proof.
  set (ticket := request_of self POST "/me/videos" [] (Some (ticket_body size))).
  unfold vimeo_client.upload_video. fold (ticket_body size).
  unfold bind at 1. rewrite request_run. fold ticket.
  match goal with
  | |- context [match ?res with Ok _ => _ | Raise _ => _ end] =>
      match res with
      | context [p sent ticket] => destruct res as [tk|e]
      end
  end;
    [|exists []; split; [reflexivity | now left]].
  repeat (rewrite lift_bind_trace;
          match goal with |- context [match ?r with _ => _ end] =>
            destruct r; [|exists []; split; [reflexivity | now left]] end).
  match goal with |- context [if ?b then _ else _] => destruct b end;
    [exists []; split; [reflexivity | now left]|].
  match goal with |- context [try_except (vimeo_client.upload_transfer ?tg _) _] =>
    destruct (upload_transfer_trace tg bytes p (sent ++ [ticket])%list)
      as (extra & Htr & Hshape);
    pose proof (try_except_all_trace (vimeo_client.upload_transfer tg bytes)
                  (HTTPException 502 "Upload to Vimeo Server failed")
                  p (sent ++ [ticket])%list) as Htry
  end.
  rewrite Htr in Htry. exists extra. split; [|exact Hshape].
  unfold bind at 1.
  match goal with |- context [try_except ?m ?h p ?s] =>
    destruct (try_except m h p s) as [[u|e] tr] end;
    cbn [snd] in Htry; subst tr.
  - repeat (rewrite lift_bind_trace;
            match goal with |- context [match ?r with _ => _ end] =>
              destruct r end);
      unfold lift; cbn [snd]; now rewrite <- app_assoc.
  - cbn [snd]. now rewrite <- app_assoc.
Qed.

End UploadCalls.

Section UploadHandler.
Context (L : Libs) (settings : Settings).

(** X18.  Whatever the file and whatever the provider does, the upload
    handler first asks for a ticket, declaring as size the number of
    bytes of the file and carrying the bearer token, and after that
    makes no call, or the PATCH, or the PATCH and the PUT, to one
    target: at most three calls.  The transfer calls carry the bytes of
    the file and no [Authorization] header. *)
Theorem upload_handler_calls (bytes : string) (p : Provider) :
  exists extra,
    snd (fastapi.serve (videos.upload_video L settings (Some bytes)) p)
    = request_of (VimeoClient_init settings) POST "/me/videos" []
        (Some (ticket_body (Z.of_nat (String.length bytes)))) :: extra /\
    starlette.header "Authorization"
      (headers (request_of (VimeoClient_init settings) POST "/me/videos" []
                  (Some (ticket_body (Z.of_nat (String.length bytes))))))
    = Some ("bearer " ++ VIMEO_ACCESS_TOKEN settings) /\
    (extra = [] \/
     exists t, extra = [patch_request t bytes] \/
               extra = [patch_request t bytes; put_request t bytes]) /\
    (forall req, In req extra ->
       content req = Some bytes /\
       starlette.header "Authorization" (headers req) = None).
Proof.
  destruct (upload_video_trace L (VimeoClient_init settings) bytes
              (Z.of_nat (String.length bytes)) p []) as (extra & Htr & Hshape).
  exists extra. split; [|split; [reflexivity|split; [exact Hshape|]]].
  - rewrite serve_trace. unfold videos.upload_video.
    rewrite lift_bind_trace. cbn [fastapi.File_required].
    rewrite bind_ret_trace. exact Htr.
  - intros req Hin.
    destruct Hshape as [-> | (t & [-> | ->])]; [destruct Hin| |].
    + destruct Hin as [<-|[]]. split; reflexivity.
    + destruct Hin as [<-|[<-|[]]]; split; reflexivity.
Qed.

End UploadHandler.

(** ** Where the settings come from *)



Lemma upload_handler_calls_sample :
  exists extra,
    snd (fastapi.serve
           (videos.upload_video sample_libs sample_settings (Some "bytes"))
           (upload_provider sample_ticket 500 500))
    = request_of sample_client POST "/me/videos" [] (Some (ticket_body 5))
        :: extra /\
    starlette.header "Authorization"
      (headers (request_of sample_client POST "/me/videos" []
                  (Some (ticket_body 5))))
    = Some "bearer token" /\
    (extra = [] \/
     exists t, extra = [patch_request t "bytes"] \/
               extra = [patch_request t "bytes"; put_request t "bytes"]) /\
    (forall req, In req extra ->
       content req = Some "bytes" /\
       starlette.header "Authorization" (headers req) = None).
Proof.
  exact (upload_handler_calls sample_libs sample_settings "bytes"
           (upload_provider sample_ticket 500 500)).
Defined.
